(** * AtalBhujal front end: filter cascade, record search, ask and report handlers

    A shallow embedding of the logic of the React pages
    [Frontend/src/pages/Explore.tsx], [Frontend/src/pages/Ask.tsx] and the
    report page (same repository), together with the helpers of
    [src/lib/api.ts] they call.

    Conventions.
    - A JavaScript string is the list of its UTF-16 code units ([jsstring]).
    - React state is an explicit record; a handler or effect is a function
      from the state before it runs to the state after it has run.
    - The outside world (toasts shown, HTTP requests issued, downloads
      started) is a log kept in that record, newest entry last.
    - The backend is a function from a request to an [outcome]: the promise
      is either resolved with a value or rejected. *)

From Stdlib Require Import Strings.String Strings.Ascii.
From Stdlib Require Import Sorting.Sorted.
From stdpp Require Import numbers list pretty.

(** ** JavaScript strings and the [String.prototype] methods used *)

Module JS.

Definition code_unit := N.
Definition jsstring := list code_unit.

(** An ASCII literal of the source as a list of code units. *)
Definition lit (s : string) : jsstring :=
  N_of_ascii <$> list_ascii_of_string s.

(** Truthiness of a string: only the empty string is falsy. *)
Definition truthy (s : jsstring) : bool :=
  match s with
  | [] => false
  | _ :: _ => true
  end.

(** [a || b] on strings. *)
Definition or_else (a b : jsstring) : jsstring :=
  if truthy a then a else b.

Fixpoint starts_with (sep s : jsstring) : bool :=
  match sep, s with
  | [], _ => true
  | _ :: _, [] => false
  | c :: sep', d :: s' => (c =? d)%N && starts_with sep' s'
  end.

(** The scan of [String.prototype.split] with a non-empty separator:
    [cur] is the piece being collected, [skip] the number of code units of
    a separator just matched that are still to be passed over. *)
Fixpoint split_from (sep : jsstring) (skip : nat) (cur s : jsstring)
  : list jsstring :=
  match s with
  | [] => [cur]
  | c :: s' =>
      match skip with
      | S k => split_from sep k cur s'
      | O =>
          if starts_with sep s
          then cur :: split_from sep (length sep - 1) [] s'
          else split_from sep 0 (cur ++ [c]) s'
      end
  end.

(** [s.split(sep)] without a limit.  With the empty separator the string
    is cut into its code units (and the empty string gives the empty
    array). *)
Definition split (sep s : jsstring) : list jsstring :=
  match sep with
  | [] => (λ c, [c]) <$> s
  | _ :: _ => split_from sep 0 [] s
  end.

(** WhiteSpace and LineTerminator code points, the ones [trim] removes. *)
Definition is_whitespace (c : code_unit) : bool :=
  ((9 <=? c) && (c <=? 13) || (c =? 32) || (c =? 160) || (c =? 5760)
   || (8192 <=? c) && (c <=? 8202) || (c =? 8232) || (c =? 8233)
   || (c =? 8239) || (c =? 8287) || (c =? 12288) || (c =? 65279))%N.

Fixpoint trim_start (s : jsstring) : jsstring :=
  match s with
  | [] => []
  | c :: s' => if is_whitespace c then trim_start s' else s
  end.

Definition trim_end (s : jsstring) : jsstring :=
  reverse (trim_start (reverse s)).

Definition trim (s : jsstring) : jsstring := trim_end (trim_start s).

(** [s.replace(pat, by)] with a string pattern: the first occurrence only. *)
Fixpoint replace_first (pat by_ s : jsstring) : jsstring :=
  if starts_with pat s then by_ ++ drop (length pat) s
  else match s with
       | [] => []
       | c :: s' => c :: replace_first pat by_ s'
       end.

End JS.

Import JS.

(** ** Shared by the pages *)

(** [const cleanName = (val: string) => val.split("_")[0];]
    Index 0 of an array is [undefined] when the array is empty; [split_head]
    below shows that this never happens here, so the result is a string as
    the TypeScript signature says. *)
Definition underscore : jsstring := lit "_".

Definition cleanName (val : jsstring) : jsstring :=
  match split underscore val !! 0%nat with
  | Some prefix => prefix
  | None => []
  end.

(** [[...new Set(xs)]]: a [Set] keeps its elements in insertion order and
    [add] ignores a value it already holds (strings are compared by
    content); spreading the set lists the elements in that order. *)
Section NewSet.
Context {A : Type} `{EqDecision A}.

Definition set_add (held : list A) (x : A) : list A :=
  if decide (x ∈ held) then held else held ++ [x].

Definition spread_new_Set (xs : list A) : list A :=
  foldl set_add [] xs.

(** Position of the first occurrence ([Array.prototype.indexOf] without
    the -1 convention); used to state the iteration order. *)
Fixpoint first_index (x : A) (xs : list A) : option nat :=
  match xs with
  | [] => None
  | y :: ys => if decide (x = y) then Some 0%nat else S <$> first_index x ys
  end.
End NewSet.

(** A promise awaited inside [try]: resolved with a value, or rejected
    (the [catch] branch runs). *)
Inductive outcome (A : Type) : Type :=
  | Resolved (a : A)
  | Rejected.
Arguments Resolved {A} a.
Arguments Rejected {A}.

(** The argument of [toast({ title, description, variant })]. *)
Inductive Variant := Default | Destructive.

Record Toast := {
  title : jsstring;
  description : jsstring;
  variant : Variant
}.

(** One element of [res.raw] of [/available-filters], and of [rawFilters]. *)
Module Raw.
Record t := { state : jsstring; district : jsstring; block : jsstring }.

(** [(r) => ({ state: cleanName(r.state), district: cleanName(r.district),
    block: cleanName(r.block) })] *)
Definition cleaned (r : t) : t :=
  {| state := cleanName (state r);
     district := cleanName (district r);
     block := cleanName (block r) |}.
End Raw.

#[global] Instance Raw_eq_dec : EqDecision Raw.t.
Proof. solve_decision. Defined.

(** ** [URLSearchParams]: the application/x-www-form-urlencoded serializer *)

Module URLSearchParams.

Definition t := list (jsstring * jsstring).

(** [qp.append(k, v)] *)
Definition append (qp : t) (k v : jsstring) : t := qp ++ [(k, v)].

Definition is_high_surrogate (c : N) : bool := (55296 <=? c)%N && (c <=? 56319)%N.
Definition is_low_surrogate (c : N) : bool := (56320 <=? c)%N && (c <=? 57343)%N.

(** Code units to scalar values; a lone surrogate becomes U+FFFD. *)
Fixpoint scalar_values (s : jsstring) : list N :=
  match s with
  | [] => []
  | c :: s' =>
      if is_high_surrogate c then
        match s' with
        | d :: s'' =>
            if is_low_surrogate d
            then (65536 + (c - 55296) * 1024 + (d - 56320))%N :: scalar_values s''
            else 65533%N :: scalar_values s'
        | [] => [65533%N]
        end
      else if is_low_surrogate c then 65533%N :: scalar_values s'
      else c :: scalar_values s'
  end.

Definition utf8 (cp : N) : list N :=
  (if cp <? 128 then [cp]
   else if cp <? 2048 then [192 + cp / 64; 128 + cp mod 64]
   else if cp <? 65536 then
     [224 + cp / 4096; 128 + (cp / 64) mod 64; 128 + cp mod 64]
   else [240 + cp / 262144; 128 + (cp / 4096) mod 64;
         128 + (cp / 64) mod 64; 128 + cp mod 64])%N.

Definition hex_digit (n : N) : N := (if n <? 10 then 48 + n else 55 + n)%N.

(** ASCII alphanumerics and [*-._] are kept, a space becomes [+], any
    other byte is percent-encoded with upper-case digits. *)
Definition keeps (b : N) : bool :=
  ((48 <=? b) && (b <=? 57) || (65 <=? b) && (b <=? 90)
   || (97 <=? b) && (b <=? 122)
   || (b =? 42) || (b =? 45) || (b =? 46) || (b =? 95))%N.

Definition encode_byte (b : N) : list N :=
  if keeps b then [b]
  else if (b =? 32)%N then lit "+"
  else lit "%" ++ [hex_digit (b / 16)%N; hex_digit (b mod 16)%N].

Definition encode (s : jsstring) : jsstring :=
  concat (encode_byte <$> concat (utf8 <$> scalar_values s)).

Fixpoint join (sep : jsstring) (parts : list jsstring) : jsstring :=
  match parts with
  | [] => []
  | [p] => p
  | p :: rest => p ++ sep ++ join sep rest
  end.

(** [qp.toString()] *)
Definition toString (qp : t) : jsstring :=
  join (lit "&") ((λ kv, encode kv.1 ++ lit "=" ++ encode kv.2) <$> qp).

End URLSearchParams.

(** ** [src/lib/api.ts] *)

(** [getData(endpoint)] and [postData(endpoint, data)] fetch
    [BASE_URL + endpoint]; they throw when the fetch fails or the status is
    not ok, and otherwise return the parsed JSON.  A handler therefore sees
    an [outcome]; the request is what it passed in. *)
Definition BASE_URL : jsstring := lit "https://atalbhujal.onrender.com".

(** ** [Frontend/src/pages/Explore.tsx] *)

Module Explore.

(** [filters]: every field is a string, the empty string when nothing is
    chosen (the year is stored as [y.toString()]). *)
Record Filters := {
  state : jsstring;
  district : jsstring;
  block : jsstring;
  year : jsstring;
  season : jsstring
}.

(** [Object.entries(filters)]: own keys in insertion order. *)
Definition entries (f : Filters) : list (jsstring * jsstring) :=
  [ (lit "state", state f); (lit "district", district f);
    (lit "block", block f); (lit "year", year f);
    (lit "season", season f) ].

(** One element of the [/water-level] response.  [number] is the type of
    [water_level] values, which the page only passes on. *)
Module Row.
Record t (number : Type) := {
  district : jsstring;
  block : jsstring;
  year : Z;
  season : jsstring;
  water_level : number
}.
Arguments district {number} _.
Arguments block {number} _.
Arguments year {number} _.
Arguments season {number} _.
Arguments water_level {number} _.
End Row.

(** One element of [chartData]: [{ year: r.year, level: r.water_level }]. *)
Module Point.
Record t (number : Type) := { year : Z; level : number }.
Arguments year {number} _.
Arguments level {number} _.
End Point.

Record FilterOptions := {
  states : list jsstring;
  districts : list jsstring;
  blocks : list jsstring;
  years : list Z;
  seasons : list jsstring
}.

(** The JSON of [/available-filters]; [raw] and [states] may be absent. *)
Record AvailableFilters := {
  res_raw : option (list Raw.t);
  res_states : option (list jsstring);
  res_years : list Z;
  res_seasons : list jsstring
}.

(** The component's state and the log of what it did to the outside. *)
Record State (number : Type) := {
  filters : Filters;
  filterOptions : FilterOptions;
  rawFilters : list Raw.t;
  rows : list (Row.t number);
  chartData : list (Point.t number);
  toasts : list Toast;
  requests : list jsstring
}.
Arguments filters {number} _.
Arguments filterOptions {number} _.
Arguments rawFilters {number} _.
Arguments rows {number} _.
Arguments chartData {number} _.
Arguments toasts {number} _.
Arguments requests {number} _.

Definition initial (number : Type) : State number :=
  {| filters := {| state := []; district := []; block := [];
                   year := []; season := [] |};
     filterOptions := {| states := []; districts := []; blocks := [];
                         years := []; seasons := [] |};
     rawFilters := []; rows := []; chartData := [];
     toasts := []; requests := [] |}.

Section Handlers.
Context {number : Type}.

(** The mount effect: load the filters once. *)
Definition load (getData : jsstring → outcome AvailableFilters)
    (st : State number) : State number :=
  let endpoint := lit "/available-filters" in
  let failed (raw : list Raw.t) : State number :=
    {| filters := filters st; filterOptions := filterOptions st;
       rawFilters := raw; rows := rows st; chartData := chartData st;
       toasts := toasts st ++
         [{| title := lit "Error";
             description := lit "Failed to load filter options.";
             variant := Destructive |}];
       requests := requests st ++ [endpoint] |} in
  match getData endpoint with
  | Rejected => failed (rawFilters st)
  | Resolved res =>
      match res_raw res with
      | None => failed (rawFilters st)
      | Some raw =>
          let cleanedRaw := Raw.cleaned <$> raw in
          match res_states res with
          | None => failed cleanedRaw
          | Some sts =>
              {| filters := filters st;
                 filterOptions :=
                   {| states := cleanName <$> sts;
                      districts := [];
                      blocks := [];
                      years := res_years res;
                      seasons := res_seasons res |};
                 rawFilters := cleanedRaw;
                 rows := rows st; chartData := chartData st;
                 toasts := toasts st;
                 requests := requests st ++ [endpoint] |}
          end
      end
  end.

(** The effect on [filters.state]: offer only its districts. *)
Definition state_effect (st : State number) : State number :=
  if truthy (state (filters st)) then
    let districts :=
      Raw.district <$>
        filter (λ r, Raw.state r = state (filters st)) (rawFilters st) in
    let prev := filterOptions st in
    let prevf := filters st in
    {| filters := {| state := state prevf; district := []; block := [];
                     year := year prevf; season := season prevf |};
       filterOptions :=
         {| states := states prev;
            districts := spread_new_Set districts;
            blocks := [];
            years := years prev;
            seasons := seasons prev |};
       rawFilters := rawFilters st; rows := rows st;
       chartData := chartData st; toasts := toasts st;
       requests := requests st |}
  else st.

(** The effect on [filters.district]: offer only its blocks. *)
Definition district_effect (st : State number) : State number :=
  if truthy (district (filters st)) then
    let blocks_ :=
      Raw.block <$>
        filter (λ r, Raw.district r = district (filters st))
               (rawFilters st) in
    let prev := filterOptions st in
    let prevf := filters st in
    {| filters := {| state := state prevf; district := district prevf;
                     block := [];
                     year := year prevf; season := season prevf |};
       filterOptions :=
         {| states := states prev;
            districts := districts prev;
            blocks := spread_new_Set blocks_;
            years := years prev;
            seasons := seasons prev |};
       rawFilters := rawFilters st; rows := rows st;
       chartData := chartData st; toasts := toasts st;
       requests := requests st |}
  else st.

(** [Object.entries(filters).forEach(([k, v]) => { if (v) qp.append(k, v); })] *)
Definition search_params (f : Filters) : URLSearchParams.t :=
  foldl (λ qp kv, if truthy kv.2
                   then URLSearchParams.append qp kv.1 kv.2
                   else qp)
        [] (entries f).

Definition search_url (f : Filters) : jsstring :=
  lit "/water-level?" ++ URLSearchParams.toString (search_params f).

Definition to_point (r : Row.t number) : Point.t number :=
  {| Point.year := Row.year r; Point.level := Row.water_level r |}.

(** [handleSearch] *)
Definition handleSearch
    (getData : jsstring → outcome (list (Row.t number)))
    (st : State number) : State number :=
  let url := search_url (filters st) in
  match getData url with
  | Resolved res =>
      {| filters := filters st; filterOptions := filterOptions st;
         rawFilters := rawFilters st;
         rows := res;
         chartData := to_point <$> res;
         toasts := toasts st ++
           [{| title := lit "Loaded";
               description :=
                 lit (pretty (length res)) ++ lit " records found.";
               variant := Default |}];
         requests := requests st ++ [url] |}
  | Rejected =>
      {| filters := filters st; filterOptions := filterOptions st;
         rawFilters := rawFilters st; rows := rows st;
         chartData := chartData st;
         toasts := toasts st ++
           [{| title := lit "No Data Found";
               description := lit "No results for selected filters.";
               variant := Destructive |}];
         requests := requests st ++ [url] |}
  end.

(** [onValueChange] of the state and district selects. *)
Definition select_state (v : jsstring) (st : State number) : State number :=
  let f := filters st in
  {| filters := {| state := v; district := district f; block := block f;
                   year := year f; season := season f |};
     filterOptions := filterOptions st; rawFilters := rawFilters st;
     rows := rows st; chartData := chartData st; toasts := toasts st;
     requests := requests st |}.

Definition select_district (v : jsstring) (st : State number) : State number :=
  let f := filters st in
  {| filters := {| state := state f; district := v; block := block f;
                   year := year f; season := season f |};
     filterOptions := filterOptions st; rawFilters := rawFilters st;
     rows := rows st; chartData := chartData st; toasts := toasts st;
     requests := requests st |}.

End Handlers.
End Explore.

(** ** [Frontend/src/pages/Ask.tsx] *)

Module Ask.

Inductive Sender := bot | user.

Record Message := { type : Sender; content : jsstring }.

(** The body [{ query, k: 5 }] posted to [/ask_ai]. *)
Record AskBody := { body_query : jsstring; k : N }.

Record Request := { endpoint : jsstring; body : AskBody }.

(** The JSON answer: [response] may be [null], [answer] may be absent. *)
Record Response := { answer : option jsstring }.

Record State := {
  query : jsstring;
  messages : list Message;
  toasts : list Toast;
  requests : list Request
}.

Definition greeting : jsstring :=
  lit "Hello! I'm your AI assistant for groundwater data. You can ask me questions about water levels, trends, policies, or analysis. How can I help you today?".

Definition initial : State :=
  {| query := [];
     messages := [{| type := bot; content := greeting |}];
     toasts := []; requests := [] |}.

Definition fallback_reply : jsstring :=
  lit "Sorry, I couldn't fetch an answer.".

(** U+26A0 U+FE0F followed by the ASCII text. *)
Definition unreachable_reply : jsstring :=
  [9888%N; 65039%N] ++
  lit " Unable to reach AI backend. Please check if the server is running.".

(** [response?.answer || "Sorry, I couldn't fetch an answer."] *)
Definition botReply (response : option Response) : jsstring :=
  match response with
  | Some r =>
      match answer r with
      | Some a => or_else a fallback_reply
      | None => fallback_reply
      end
  | None => fallback_reply
  end.

(** [handleSubmit] *)
Definition handleSubmit (postData : Request → outcome (option Response))
    (st : State) : State :=
  if negb (truthy (trim (query st))) then st
  else
    let newMessages :=
      messages st ++ [{| type := user; content := query st |}] in
    let processing :=
      {| title := lit "Processing...";
         description := lit "AI is generating a response.";
         variant := Default |} in
    let req :=
      {| endpoint := lit "/ask_ai";
         body := {| body_query := query st; k := 5 |} |} in
    match postData req with
    | Resolved response =>
        {| query := [];
           messages :=
             newMessages ++ [{| type := bot; content := botReply response |}];
           toasts := toasts st ++ [processing];
           requests := requests st ++ [req] |}
    | Rejected =>
        {| query := [];
           messages :=
             newMessages ++
               [{| type := bot; content := unreachable_reply |}];
           toasts := toasts st ++
             [processing;
              {| title := lit "Error";
                 description := lit "Backend not responding.";
                 variant := Destructive |}];
           requests := requests st ++ [req] |}
    end.

End Ask.

(** ** The report page *)

Module Report.

(** [reportConfig] *)
Record Config := {
  state : jsstring;
  district : jsstring;
  block : jsstring;
  reportType : jsstring;
  includeCharts : bool;
  includeTrends : bool;
  includeComparisons : bool;
  includeRecommendations : bool
}.

Record FilterOptions := {
  states : list jsstring;
  districts : list jsstring;
  blocks : list jsstring
}.

(** The JSON of [/available-filters], read as [res.raw || []] and
    [res.states || []]. *)
Record AvailableFilters := {
  res_raw : option (list Raw.t);
  res_states : option (list jsstring)
}.

(** The JSON of [/generate_report]. *)
Record Result := { message : option jsstring; path : option jsstring }.

Record Request := { endpoint : jsstring; body : Config }.

(** The anchor element that is clicked to start the download. *)
Record Link := { href : jsstring; download : jsstring }.

Record State := {
  reportConfig : Config;
  filterOptions : FilterOptions;
  rawFilters : list Raw.t;
  toasts : list Toast;
  filter_requests : list jsstring;
  requests : list Request;
  downloads : list Link
}.

Definition initial : State :=
  {| reportConfig :=
       {| state := []; district := []; block := []; reportType := [];
          includeCharts := true; includeTrends := true;
          includeComparisons := false; includeRecommendations := true |};
     filterOptions := {| states := []; districts := []; blocks := [] |};
     rawFilters := []; toasts := []; filter_requests := [];
     requests := []; downloads := [] |}.

(** The required fields of the form. *)
Inductive Field := FState | FDistrict | FReportType.

Definition field_value (f : Field) (c : Config) : jsstring :=
  match f with
  | FState => state c
  | FDistrict => district c
  | FReportType => reportType c
  end.

(** The mount effect. *)
Definition loadFilters (getData : jsstring → outcome AvailableFilters)
    (st : State) : State :=
  let url := lit "/available-filters" in
  match getData url with
  | Resolved res =>
      let cleanedRaw := Raw.cleaned <$> default [] (res_raw res) in
      {| reportConfig := reportConfig st;
         filterOptions :=
           {| states := cleanName <$> default [] (res_states res);
              districts := [];
              blocks := [] |};
         rawFilters := cleanedRaw;
         toasts := toasts st;
         filter_requests := filter_requests st ++ [url];
         requests := requests st; downloads := downloads st |}
  | Rejected =>
      {| reportConfig := reportConfig st;
         filterOptions := filterOptions st;
         rawFilters := rawFilters st;
         toasts := toasts st ++
           [{| title := lit "Error";
               description := lit "Could not load filters from backend.";
               variant := Destructive |}];
         filter_requests := filter_requests st ++ [url];
         requests := requests st; downloads := downloads st |}
  end.

Definition with_location (c : Config) (s d b : jsstring) : Config :=
  {| state := s; district := d; block := b; reportType := reportType c;
     includeCharts := includeCharts c; includeTrends := includeTrends c;
     includeComparisons := includeComparisons c;
     includeRecommendations := includeRecommendations c |}.

(** The effect on [reportConfig.state]. *)
Definition state_effect (st : State) : State :=
  if truthy (state (reportConfig st)) then
    let districts_ :=
      Raw.district <$>
        filter (λ r, Raw.state r = state (reportConfig st))
               (rawFilters st) in
    let prev := filterOptions st in
    let prevc := reportConfig st in
    {| reportConfig := with_location prevc (state prevc) [] [];
       filterOptions :=
         {| states := states prev;
            districts := spread_new_Set districts_;
            blocks := [] |};
       rawFilters := rawFilters st; toasts := toasts st;
       filter_requests := filter_requests st;
       requests := requests st; downloads := downloads st |}
  else st.

(** The effect on [reportConfig.district]. *)
Definition district_effect (st : State) : State :=
  if truthy (district (reportConfig st)) then
    let blocks_ :=
      Raw.block <$>
        filter (λ r, Raw.district r = district (reportConfig st))
               (rawFilters st) in
    let prev := filterOptions st in
    let prevc := reportConfig st in
    {| reportConfig := with_location prevc (state prevc) (district prevc) [];
       filterOptions :=
         {| states := states prev;
            districts := districts prev;
            blocks := spread_new_Set blocks_ |};
       rawFilters := rawFilters st; toasts := toasts st;
       filter_requests := filter_requests st;
       requests := requests st; downloads := downloads st |}
  else st.

(** [onValueChange] of the state and district selects. *)
Definition select_state (v : jsstring) (st : State) : State :=
  let c := reportConfig st in
  {| reportConfig := with_location c v (district c) (block c);
     filterOptions := filterOptions st; rawFilters := rawFilters st;
     toasts := toasts st; filter_requests := filter_requests st;
     requests := requests st; downloads := downloads st |}.

Definition select_district (v : jsstring) (st : State) : State :=
  let c := reportConfig st in
  {| reportConfig := with_location c (state c) v (block c);
     filterOptions := filterOptions st; rawFilters := rawFilters st;
     toasts := toasts st; filter_requests := filter_requests st;
     requests := requests st; downloads := downloads st |}.

(** The required fields left empty, in the order the guard reads them. *)
Definition missing (c : Config) : list Field :=
  filter (λ f, field_value f c = []) [FState; FDistrict; FReportType].

Definition missing_information : Toast :=
  {| title := lit "Missing Information";
     description := lit "Please fill all required fields.";
     variant := Destructive |}.

Definition generating : Toast :=
  {| title := lit "Generating Report";
     description := lit "Please wait...";
     variant := Default |}.

(** [result?.message || "Report generated successfully."] *)
Definition ready (result : option Result) : Toast :=
  {| title := lit "Report Ready";
     description :=
       or_else (default [] (result ≫= message))
               (lit "Report generated successfully.");
     variant := Default |}.

(** The one-unit string of the source literal for a backslash. *)
Definition backslash : jsstring := [92%N].

(** The link built when [result?.path] is truthy. *)
Definition link_of (result : option Result) : list Link :=
  match result ≫= path with
  | Some p =>
      if truthy p then
        [{| href := lit "http://127.0.0.1:8000/" ++
                    replace_first backslash (lit "/") p;
            download :=
              or_else (default [] (last (split (lit "/") p)))
                      (lit "report.pdf") |}]
      else []
  | None => []
  end.

(** [handleGenerateReport] *)
Definition handleGenerateReport
    (postData : Request → outcome (option Result)) (st : State) : State :=
  let c := reportConfig st in
  if negb (truthy (state c)) || negb (truthy (district c))
     || negb (truthy (reportType c))
  then
    {| reportConfig := c; filterOptions := filterOptions st;
       rawFilters := rawFilters st;
       toasts := toasts st ++ [missing_information];
       filter_requests := filter_requests st;
       requests := requests st; downloads := downloads st |}
  else
    let req := {| endpoint := lit "/generate_report"; body := c |} in
    match postData req with
    | Resolved result =>
        {| reportConfig := c; filterOptions := filterOptions st;
           rawFilters := rawFilters st;
           toasts := toasts st ++ [generating; ready result];
           filter_requests := filter_requests st;
           requests := requests st ++ [req];
           downloads := downloads st ++ link_of result |}
    | Rejected =>
        {| reportConfig := c; filterOptions := filterOptions st;
           rawFilters := rawFilters st;
           toasts := toasts st ++
             [generating;
              {| title := lit "Error";
                 description := lit "Failed to generate report.";
                 variant := Destructive |}];
           filter_requests := filter_requests st;
           requests := requests st ++ [req]; downloads := downloads st |}
    end.

End Report.

(** ** [src/lib/api.ts]: the helpers themselves *)

Module Api.

(** What a helper can throw: [fetch] rejects, the status is not ok, or the
    body is not JSON. *)
Inductive Error :=
  | NetworkError
  | HttpError (message : jsstring)
  | ParseError.

(** An awaited helper: it returned a value or threw. *)
Inductive settled (J : Type) : Type :=
  | Fulfilled (j : J)
  | Thrown (e : Error).
Arguments Fulfilled {J} j.
Arguments Thrown {J} e.

Inductive Method := GET | POST.

(** The arguments of one [fetch] call; [body] is the value handed to
    [JSON.stringify]. *)
Record Call (B : Type) := {
  url : jsstring;
  method : Method;
  content_type : option jsstring;
  body : option B
}.
Arguments url {B} _.
Arguments method {B} _.
Arguments content_type {B} _.
Arguments body {B} _.

(** The fetched response; [json] is [None] when the body does not parse. *)
Record Response (J : Type) := {
  ok : bool;
  status : N;
  statusText : jsstring;
  json : option J
}.
Arguments ok {J} _.
Arguments status {J} _.
Arguments statusText {J} _.
Arguments json {J} _.

(** [`Error ${response.status}: ${response.statusText}`] *)
Definition http_error {J : Type} (r : Response J) : jsstring :=
  lit "Error " ++ lit (pretty (status r)) ++ lit ": " ++ statusText r.

(** The [try] block: await the fetch, throw unless [response.ok], return
    [await response.json()].  [None] is a rejected [fetch]. *)
Definition settle {J : Type} (fetched : option (Response J)) : settled J :=
  match fetched with
  | None => Thrown NetworkError
  | Some r =>
      if ok r then
        match json r with
        | Some j => Fulfilled j
        | None => Thrown ParseError
        end
      else Thrown (HttpError (http_error r))
  end.

(** The [catch] block: [console.error(label, err); throw err;].  The second
    component is what was written to the console. *)
Definition logged {J : Type} (label : jsstring) (s : settled J)
    : settled J * list (jsstring * Error) :=
  (s, match s with
      | Thrown e => [(label, e)]
      | Fulfilled _ => []
      end).

(** [getData(endpoint)] *)
Definition getData {B J : Type} (fetch : Call B → option (Response J))
    (endpoint : jsstring) : settled J * list (jsstring * Error) :=
  logged (lit "API GET error:")
    (settle (fetch {| url := BASE_URL ++ endpoint; method := GET;
                      content_type := None; body := None |})).

(** [postData(endpoint, data)] *)
Definition postData {B J : Type} (fetch : Call B → option (Response J))
    (endpoint : jsstring) (data : B) : settled J * list (jsstring * Error) :=
  logged (lit "API POST error:")
    (settle (fetch {| url := BASE_URL ++ endpoint; method := POST;
                      content_type := Some (lit "application/json");
                      body := Some data |})).

(** What a handler that awaits the helper inside [try] sees. *)
Definition to_outcome {J : Type} (s : settled J) : outcome J :=
  match s with
  | Fulfilled j => Resolved j
  | Thrown _ => Rejected
  end.

End Api.

(** ** The report page: check boxes and preview *)

Module ReportView.

(** [ReportBooleanKeys] *)
Inductive ReportBooleanKeys :=
  | includeCharts
  | includeTrends
  | includeComparisons
  | includeRecommendations.

(** The argument of [onCheckedChange]: [true], [false] or ["indeterminate"]. *)
Inductive CheckedState := Checked | Unchecked | Indeterminate.

(** [checked === true] *)
Definition is_true (checked : CheckedState) : bool :=
  match checked with
  | Checked => true
  | Unchecked | Indeterminate => false
  end.

(** [reportConfig[key]] *)
Definition flag (key : ReportBooleanKeys) (c : Report.Config) : bool :=
  match key with
  | includeCharts => Report.includeCharts c
  | includeTrends => Report.includeTrends c
  | includeComparisons => Report.includeComparisons c
  | includeRecommendations => Report.includeRecommendations c
  end.

(** [setReportConfig({ ...reportConfig, [key]: checked === true })] *)
Definition onCheckedChange (key : ReportBooleanKeys) (checked : CheckedState)
    (c : Report.Config) : Report.Config :=
  let v := is_true checked in
  {| Report.state := Report.state c; Report.district := Report.district c;
     Report.block := Report.block c; Report.reportType := Report.reportType c;
     Report.includeCharts :=
       match key with includeCharts => v | _ => Report.includeCharts c end;
     Report.includeTrends :=
       match key with includeTrends => v | _ => Report.includeTrends c end;
     Report.includeComparisons :=
       match key with
       | includeComparisons => v
       | _ => Report.includeComparisons c
       end;
     Report.includeRecommendations :=
       match key with
       | includeRecommendations => v
       | _ => Report.includeRecommendations c
       end |}.

(** [reportTypes]: value and label. *)
Definition reportTypes : list (jsstring * jsstring) :=
  [ (lit "annual", lit "Annual Analysis Report");
    (lit "seasonal", lit "Seasonal Comparison Report");
    (lit "trend", lit "Long-term Trend Analysis");
    (lit "summary", lit "Executive Summary") ].

(** [reportTypes.find((t) => t.value === v)?.label] *)
Fixpoint find_label (types : list (jsstring * jsstring)) (v : jsstring)
    : option jsstring :=
  match types with
  | [] => None
  | t :: rest => if decide (t.1 = v) then Some t.2 else find_label rest v
  end.

(** The "Report Title" paragraph; [None] when nothing is rendered. *)
Definition preview_title (c : Report.Config) : option jsstring :=
  if truthy (Report.reportType c)
  then find_label reportTypes (Report.reportType c)
  else Some (lit "Select report type").

(** The "Coverage Area" paragraph. *)
Definition preview_coverage (c : Report.Config) : jsstring :=
  if truthy (Report.state c) && truthy (Report.district c)
  then Report.district c ++ lit ", " ++ Report.state c ++
       (if truthy (Report.block c)
        then lit " (" ++ Report.block c ++ lit ")"
        else [])
  else lit "Select location".

(** U+2022 and a space, the bullet written in each list item. *)
Definition bullet (text : string) : jsstring := [8226%N] ++ lit " " ++ lit text.

(** The items of the "Sections" list. *)
Definition preview_sections (c : Report.Config) : list jsstring :=
  [bullet "Executive Summary"; bullet "Water Level Data"]
  ++ (if Report.includeCharts c then [bullet "Charts & Graphs"] else [])
  ++ (if Report.includeTrends c then [bullet "Trend Analysis"] else [])
  ++ (if Report.includeComparisons c then [bullet "Regional Comparisons"] else [])
  ++ (if Report.includeRecommendations c then [bullet "Recommendations"] else []).

End ReportView.

#[global] Instance ReportBooleanKeys_eq_dec :
  EqDecision ReportView.ReportBooleanKeys.
Proof. solve_decision. Defined.

(** ** [Ask.tsx]: the input box *)


Definition suggestedQuestions : list jsstring :=
  [ lit "What is the average water level decline rate in Gujarat?";
    lit "How does monsoon affect groundwater recharge?";
    lit "Which districts have critical water levels?";
    lit "What are the key policies under Atal Bhujal scheme?" ].

(** ** Vocabulary of the statements *)

(** [result] lists its elements in the order of their first occurrence in
    [xs]. *)
Definition first_occurrence_order {A : Type} `{EqDecision A}
    (xs result : list A) : Prop :=
  ∀ (i j : nat) (a b : A),
    (i < j)%nat → result !! i = Some a → result !! j = Some b →
    ∃ m n : nat,
      first_index a xs = Some m ∧ first_index b xs = Some n ∧ (m < n)%nat.

(** The cleaned district names of the rows of [raw] whose cleaned state is
    [sel], one per row, in row order. *)
Definition matching_districts (raw : list Raw.t) (sel : jsstring)
    : list jsstring :=
  (λ r, cleanName (Raw.district r))
    <$> filter (λ r, cleanName (Raw.state r) = sel) raw.

(** What the district options must be for the selection [sel], given the
    rows [raw] as the backend sent them. *)
Definition districts_of (raw : list Raw.t) (sel : jsstring)
    (options : list jsstring) : Prop :=
  NoDup options
  ∧ (∀ d : jsstring,
        d ∈ options ↔
        ∃ r : Raw.t, r ∈ raw ∧ cleanName (Raw.state r) = sel
                     ∧ cleanName (Raw.district r) = d)
  ∧ first_occurrence_order (matching_districts raw sel) options
  ∧ ((∀ r : Raw.t, r ∈ raw → cleanName (Raw.state r) ≠ sel) → options = []).

(** The request [handleSubmit] sends for the question held in [st]. *)
Definition ask_request (st : Ask.State) : Ask.Request :=
  {| Ask.endpoint := lit "/ask_ai";
     Ask.body := {| Ask.body_query := Ask.query st; Ask.k := 5 |} |}.

(** The cleaned block names of the rows of [raw] whose cleaned district is
    [sel], one per row, in row order. *)
Definition matching_blocks (raw : list Raw.t) (sel : jsstring)
    : list jsstring :=
  (λ r, cleanName (Raw.block r))
    <$> filter (λ r, cleanName (Raw.district r) = sel) raw.

(** What the block options must be for the selected district [sel]. *)
Definition blocks_of (raw : list Raw.t) (sel : jsstring)
    (options : list jsstring) : Prop :=
  NoDup options
  ∧ (∀ b : jsstring,
        b ∈ options ↔
        ∃ r : Raw.t, r ∈ raw ∧ cleanName (Raw.district r) = sel
                     ∧ cleanName (Raw.block r) = b)
  ∧ first_occurrence_order (matching_blocks raw sel) options
  ∧ ((∀ r : Raw.t, r ∈ raw → cleanName (Raw.district r) ≠ sel) → options = []).

(** A name without ["_"]: what [cleanName] returns and leaves alone. *)
Definition underscore_free (s : jsstring) : Prop := 95%N ∉ s.

Definition row_underscore_free (r : Raw.t) : Prop :=
  underscore_free (Raw.state r) ∧ underscore_free (Raw.district r)
  ∧ underscore_free (Raw.block r).

(** The other selects of the Explore page,
    [onValueChange={(v) => setFilters({ ...filters, block: v })}] and the
    like. *)
Definition Explore_select_block {number : Type} (v : jsstring)
    (st : Explore.State number) : Explore.State number :=
  let f := Explore.filters st in
  {| Explore.filters :=
       {| Explore.state := Explore.state f;
          Explore.district := Explore.district f; Explore.block := v;
          Explore.year := Explore.year f; Explore.season := Explore.season f |};
     Explore.filterOptions := Explore.filterOptions st;
     Explore.rawFilters := Explore.rawFilters st;
     Explore.rows := Explore.rows st; Explore.chartData := Explore.chartData st;
     Explore.toasts := Explore.toasts st;
     Explore.requests := Explore.requests st |}.

Definition Explore_select_year {number : Type} (v : jsstring)
    (st : Explore.State number) : Explore.State number :=
  let f := Explore.filters st in
  {| Explore.filters :=
       {| Explore.state := Explore.state f;
          Explore.district := Explore.district f;
          Explore.block := Explore.block f;
          Explore.year := v; Explore.season := Explore.season f |};
     Explore.filterOptions := Explore.filterOptions st;
     Explore.rawFilters := Explore.rawFilters st;
     Explore.rows := Explore.rows st; Explore.chartData := Explore.chartData st;
     Explore.toasts := Explore.toasts st;
     Explore.requests := Explore.requests st |}.

Definition Explore_select_season {number : Type} (v : jsstring)
    (st : Explore.State number) : Explore.State number :=
  let f := Explore.filters st in
  {| Explore.filters :=
       {| Explore.state := Explore.state f;
          Explore.district := Explore.district f;
          Explore.block := Explore.block f;
          Explore.year := Explore.year f; Explore.season := v |};
     Explore.filterOptions := Explore.filterOptions st;
     Explore.rawFilters := Explore.rawFilters st;
     Explore.rows := Explore.rows st; Explore.chartData := Explore.chartData st;
     Explore.toasts := Explore.toasts st;
     Explore.requests := Explore.requests st |}.

(** Everything that can happen on the Explore page: the mount effect with
    what the backend answers, a choice in one of the five selects, a run of
    one of the two cascade effects, or a search with what the backend
    answers. *)
Inductive ExploreEvent (number : Type) : Type :=
  | ELoad (getData : jsstring → outcome Explore.AvailableFilters)
  | ESelectState (v : jsstring)
  | ESelectDistrict (v : jsstring)
  | ESelectBlock (v : jsstring)
  | ESelectYear (v : jsstring)
  | ESelectSeason (v : jsstring)
  | EStateEffect
  | EDistrictEffect
  | ESearch (getData : jsstring → outcome (list (Explore.Row.t number))).
Arguments ELoad {number} getData.
Arguments ESelectState {number} v.
Arguments ESelectDistrict {number} v.
Arguments ESelectBlock {number} v.
Arguments ESelectYear {number} v.
Arguments ESelectSeason {number} v.
Arguments EStateEffect {number}.
Arguments EDistrictEffect {number}.
Arguments ESearch {number} getData.

Definition Explore_step {number : Type} (st : Explore.State number)
    (e : ExploreEvent number) : Explore.State number :=
  match e with
  | ELoad getData => Explore.load getData st
  | ESelectState v => Explore.select_state v st
  | ESelectDistrict v => Explore.select_district v st
  | ESelectBlock v => Explore_select_block v st
  | ESelectYear v => Explore_select_year v st
  | ESelectSeason v => Explore_select_season v st
  | EStateEffect => Explore.state_effect st
  | EDistrictEffect => Explore.district_effect st
  | ESearch getData => Explore.handleSearch getData st
  end.

Definition Explore_run {number : Type} (events : list (ExploreEvent number))
    : Explore.State number :=
  foldl Explore_step (Explore.initial number) events.

(** The part of the Explore state the cascade is about: the option lists
    and the stored rows hold cleaned names only, and the district and block
    options hold no name twice. *)
Definition Explore_options_clean {number : Type} (st : Explore.State number)
    : Prop :=
  Forall underscore_free (Explore.states (Explore.filterOptions st))
  ∧ Forall underscore_free (Explore.districts (Explore.filterOptions st))
  ∧ Forall underscore_free (Explore.blocks (Explore.filterOptions st))
  ∧ Forall row_underscore_free (Explore.rawFilters st)
  ∧ NoDup (Explore.districts (Explore.filterOptions st))
  ∧ NoDup (Explore.blocks (Explore.filterOptions st)).

(** [setReportConfig(c)] *)
Definition Report_setReportConfig (c : Report.Config) (st : Report.State)
    : Report.State :=
  {| Report.reportConfig := c;
     Report.filterOptions := Report.filterOptions st;
     Report.rawFilters := Report.rawFilters st;
     Report.toasts := Report.toasts st;
     Report.filter_requests := Report.filter_requests st;
     Report.requests := Report.requests st;
     Report.downloads := Report.downloads st |}.

(** [{ ...reportConfig, reportType: value }] *)
Definition Report_with_reportType (c : Report.Config) (v : jsstring)
    : Report.Config :=
  {| Report.state := Report.state c; Report.district := Report.district c;
     Report.block := Report.block c; Report.reportType := v;
     Report.includeCharts := Report.includeCharts c;
     Report.includeTrends := Report.includeTrends c;
     Report.includeComparisons := Report.includeComparisons c;
     Report.includeRecommendations := Report.includeRecommendations c |}.

(** Everything that can happen on the report page. *)
Inductive ReportEvent : Type :=
  | RLoad (getData : jsstring → outcome Report.AvailableFilters)
  | RSelectState (v : jsstring)
  | RSelectDistrict (v : jsstring)
  | RSelectBlock (v : jsstring)
  | RSelectType (v : jsstring)
  | RChecked (key : ReportView.ReportBooleanKeys)
             (checked : ReportView.CheckedState)
  | RStateEffect
  | RDistrictEffect
  | RGenerate (postData : Report.Request → outcome (option Report.Result)).

Definition Report_step (st : Report.State) (e : ReportEvent) : Report.State :=
  let c := Report.reportConfig st in
  match e with
  | RLoad getData => Report.loadFilters getData st
  | RSelectState v => Report.select_state v st
  | RSelectDistrict v => Report.select_district v st
  | RSelectBlock v =>
      Report_setReportConfig
        (Report.with_location c (Report.state c) (Report.district c) v) st
  | RSelectType v => Report_setReportConfig (Report_with_reportType c v) st
  | RChecked key checked =>
      Report_setReportConfig (ReportView.onCheckedChange key checked c) st
  | RStateEffect => Report.state_effect st
  | RDistrictEffect => Report.district_effect st
  | RGenerate postData => Report.handleGenerateReport postData st
  end.

Definition Report_run (events : list ReportEvent) : Report.State :=
  foldl Report_step Report.initial events.

Definition Report_options_clean (st : Report.State) : Prop :=
  Forall underscore_free (Report.states (Report.filterOptions st))
  ∧ Forall underscore_free (Report.districts (Report.filterOptions st))
  ∧ Forall underscore_free (Report.blocks (Report.filterOptions st))
  ∧ Forall row_underscore_free (Report.rawFilters st)
  ∧ NoDup (Report.districts (Report.filterOptions st))
  ∧ NoDup (Report.blocks (Report.filterOptions st)).

(** A value the serializer writes as it is: ASCII letters, digits and
    [*-._] only. *)
Definition written_verbatim (s : jsstring) : Prop :=
  Forall (λ c, URLSearchParams.keeps c = true) s.

(** One [key=value] component of a query string. *)
Definition component (kv : jsstring * jsstring) : jsstring :=
  URLSearchParams.encode kv.1 ++ lit "=" ++ URLSearchParams.encode kv.2.




(** One turn of the chat: the question and the bot's reply to it. *)
Definition turn_messages (t : jsstring * jsstring) : list Ask.Message :=
  [{| Ask.type := Ask.user; Ask.content := t.1 |};
   {| Ask.type := Ask.bot; Ask.content := t.2 |}].

Definition turn_request (t : jsstring * jsstring) : Ask.Request :=
  {| Ask.endpoint := lit "/ask_ai";
     Ask.body := {| Ask.body_query := t.1; Ask.k := 5 |} |}.

(** The handlers with the helpers of [api.ts] plugged in: what they await
    is the helper's result for the [fetch] at hand. *)
Definition Ask_via_api
    (fetch : Api.Call Ask.AskBody → option (Api.Response (option Ask.Response)))
    (req : Ask.Request) : outcome (option Ask.Response) :=
  Api.to_outcome (Api.postData fetch (Ask.endpoint req) (Ask.body req)).1.

Definition Explore_via_api {number : Type}
    (fetch : Api.Call unit → option (Api.Response (list (Explore.Row.t number))))
    (endpoint : jsstring) : outcome (list (Explore.Row.t number)) :=
  Api.to_outcome (Api.getData fetch endpoint).1.

Definition Report_via_api
    (fetch : Api.Call Report.Config
             → option (Api.Response (option Report.Result)))
    (req : Report.Request) : outcome (option Report.Result) :=
  Api.to_outcome (Api.postData fetch (Report.endpoint req) (Report.body req)).1.

(** A fetch that does not end in parsed JSON: it was rejected, the status
    is not ok, or the body does not parse. *)
Definition fetch_failed {J : Type} (fetched : option (Api.Response J)) : Prop :=
  match fetched with
  | None => True
  | Some r => Api.ok r = false ∨ Api.json r = None
  end.

(** The list item the preview shows for each check box. *)
Definition section_item (key : ReportView.ReportBooleanKeys) : jsstring :=
  match key with
  | ReportView.includeCharts => ReportView.bullet "Charts & Graphs"
  | ReportView.includeTrends => ReportView.bullet "Trend Analysis"
  | ReportView.includeComparisons => ReportView.bullet "Regional Comparisons"
  | ReportView.includeRecommendations => ReportView.bullet "Recommendations"
  end.

(** The log of the report page: every request sent is a complete form
    posted to [/generate_report], and no more downloads were started than
    requests sent. *)
Definition Report_log_sound (st : Report.State) : Prop :=
  Forall (λ req, Report.endpoint req = lit "/generate_report"
                 ∧ Report.missing (Report.body req) = [])
         (Report.requests st)
  ∧ (length (Report.downloads st) ≤ length (Report.requests st))%nat.

(** ** Sample inputs *)

Definition sample_raw : list Raw.t :=
  [ {| Raw.state := lit "Gujarat_1"; Raw.district := lit "Mehsana_5";
       Raw.block := lit "Kadi_2" |};
    {| Raw.state := lit "Rajasthan_9"; Raw.district := lit "Jaipur_1";
       Raw.block := lit "Amer_1" |};
    {| Raw.state := lit "Gujarat_2"; Raw.district := lit "Patan_3";
       Raw.block := lit "Sami_4" |};
    {| Raw.state := lit "Gujarat_1"; Raw.district := lit "Mehsana_7";
       Raw.block := lit "Becharaji_1" |};
    {| Raw.state := lit "Rajasthan_2"; Raw.district := lit "Patan_8";
       Raw.block := lit "Neem_3" |} ].

Definition sample_explore : Explore.State unit :=
  Explore.load
    (λ _, Resolved {| Explore.res_raw := Some sample_raw;
                      Explore.res_states := Some [lit "Gujarat_1"; lit "Rajasthan_9"];
                      Explore.res_years := [2020; 2021]%Z;
                      Explore.res_seasons := [lit "pre"; lit "post"] |})
    (Explore.initial unit).

Definition sample_report : Report.State :=
  Report.loadFilters
    (λ _, Resolved {| Report.res_raw := Some sample_raw;
                      Report.res_states := Some [lit "Gujarat_1"; lit "Rajasthan_9"] |})
    Report.initial.

(** A result whose years are not ascending. *)
Definition unsorted_rows : list (Explore.Row.t Z) :=
  [ {| Explore.Row.district := lit "Mehsana"; Explore.Row.block := lit "Kadi";
       Explore.Row.year := 2021; Explore.Row.season := lit "pre";
       Explore.Row.water_level := 124%Z |};
    {| Explore.Row.district := lit "Mehsana"; Explore.Row.block := lit "Kadi";
       Explore.Row.year := 2020; Explore.Row.season := lit "pre";
       Explore.Row.water_level := 118%Z |} ].

(** A result in ascending years, two rows sharing a year. *)
Definition sorted_rows : list (Explore.Row.t Z) :=
  [ {| Explore.Row.district := lit "Mehsana"; Explore.Row.block := lit "Kadi";
       Explore.Row.year := 2020; Explore.Row.season := lit "pre";
       Explore.Row.water_level := 118%Z |};
    {| Explore.Row.district := lit "Mehsana";
       Explore.Row.block := lit "Becharaji";
       Explore.Row.year := 2020; Explore.Row.season := lit "pre";
       Explore.Row.water_level := 131%Z |};
    {| Explore.Row.district := lit "Mehsana"; Explore.Row.block := lit "Kadi";
       Explore.Row.year := 2021; Explore.Row.season := lit "pre";
       Explore.Row.water_level := 124%Z |} ].

Definition report_with (s d t : jsstring) : Report.State :=
  {| Report.reportConfig :=
       {| Report.state := s; Report.district := d; Report.block := [];
          Report.reportType := t;
          Report.includeCharts := true; Report.includeTrends := true;
          Report.includeComparisons := false;
          Report.includeRecommendations := true |};
     Report.filterOptions := Report.filterOptions sample_report;
     Report.rawFilters := Report.rawFilters sample_report;
     Report.toasts := []; Report.filter_requests := [];
     Report.requests := []; Report.downloads := [] |}.

Definition report_no_state : Report.State :=
  report_with [] (lit "Mehsana") (lit "annual").
Definition report_no_district : Report.State :=
  report_with (lit "Gujarat") [] (lit "annual").
Definition report_complete : Report.State :=
  report_with (lit "Gujarat") (lit "Mehsana") (lit "annual").

Definition report_backend (_ : Report.Request) : outcome (option Report.Result) :=
  Resolved (Some {| Report.message := Some (lit "Report generated");
                    Report.path :=
                      Some (lit "reports" ++ Report.backslash ++
                            lit "Gujarat/Mehsana.pdf") |}).

Definition ask_with (q : jsstring) : Ask.State :=
  {| Ask.query := q; Ask.messages := Ask.messages Ask.initial;
     Ask.toasts := []; Ask.requests := [] |}.

(** Two spaces, a tab, a line feed and a no-break space. *)
Definition blank_question : jsstring := [32; 32; 9; 10; 160]%N.

Definition aquifer_question : jsstring := lit "What is an aquifer?".

Definition sample_filters : Explore.State Z :=
  Explore.select_state (lit "Tamil Nadu") (Explore.initial Z).

(** A state name that itself holds ["&"] and ["="], and a year. *)
Definition tricky_filters : Explore.Filters :=
  {| Explore.state := lit "A&B=C"; Explore.district := [];
     Explore.block := []; Explore.year := lit "2020";
     Explore.season := [] |}.

Definition plain_filters : Explore.Filters :=
  {| Explore.state := lit "Gujarat"; Explore.district := lit "Mehsana";
     Explore.block := []; Explore.year := lit "2020";
     Explore.season := [] |}.

(** A server that answers every request with status 500 and a JSON body. *)
Definition status_500 {J : Type} (j : J) : Api.Response J :=
  {| Api.ok := false; Api.status := 500;
     Api.statusText := lit "Internal Server Error"; Api.json := Some j |}.

(** * Properties *)

(** ** [split] on a one-unit separator and [cleanName] *)

Section SplitOne.
Variable d : code_unit.

Lemma starts_with_one c s : starts_with [d] (c :: s) = bool_decide (d = c).
Proof.
  simpl. rewrite andb_true_r.
  destruct (N.eqb_spec d c);
    [by rewrite bool_decide_true|by rewrite bool_decide_false].
Qed.

Lemma split_from_free cur s :
  d ∉ s → split_from [d] 0 cur s = [cur ++ s].
Proof.
  revert cur. induction s as [|c s IH]; intros cur Hd.
  - by rewrite app_nil_r.
  - cbn [split_from]. rewrite starts_with_one.
    apply not_elem_of_cons in Hd as [Hc Hs].
    rewrite bool_decide_false by done.
    rewrite IH by done. by rewrite <- app_assoc.
Qed.

Lemma split_from_first cur p t :
  d ∉ p →
  split_from [d] 0 cur (p ++ d :: t) = (cur ++ p) :: split_from [d] 0 [] t.
Proof.
  revert cur. induction p as [|c p IH]; intros cur Hd.
  - cbn [app split_from]. rewrite starts_with_one, bool_decide_true by done.
    by rewrite app_nil_r.
  - apply not_elem_of_cons in Hd as [Hc Hp].
    cbn [app split_from]. rewrite starts_with_one, bool_decide_false by done.
    rewrite IH by done. by rewrite <- app_assoc.
Qed.

(** Every string either has no [d] or splits at its first [d]. *)
Lemma first_occurrence (s : jsstring) :
  d ∉ s ∨ ∃ p t, s = p ++ d :: t ∧ d ∉ p.
Proof.
  induction s as [|c s IH].
  - left. apply not_elem_of_nil.
  - destruct (decide (d = c)) as [->|Hne].
    + right. exists [], s. split; [done|apply not_elem_of_nil].
    + destruct IH as [Hfree|(p & t & -> & Hp)].
      * left. by apply not_elem_of_cons.
      * right. exists (c :: p), t. split; [done|by apply not_elem_of_cons].
Qed.
End SplitOne.

Lemma underscore_unit : underscore = [95%N].
Proof. reflexivity. Qed.

Lemma cleanName_free (raw : jsstring) : 95%N ∉ raw → cleanName raw = raw.
Proof.
  intros H. unfold cleanName. rewrite underscore_unit. cbn [split].
  by rewrite split_from_free.
Qed.

Lemma cleanName_first (p t : jsstring) :
  95%N ∉ p → cleanName (p ++ 95%N :: t) = p.
Proof.
  intros H. unfold cleanName. rewrite underscore_unit. cbn [split].
  by rewrite split_from_first.
Qed.

Lemma split_head (val : jsstring) :
  split underscore val !! 0%nat = Some (cleanName val).
Proof.
  unfold cleanName. rewrite underscore_unit. cbn [split].
  destruct (first_occurrence 95%N val) as [H|(p & t & -> & H)].
  - by rewrite split_from_free.
  - by rewrite split_from_first.
Qed.

Lemma cleanName_has_no_underscore (raw : jsstring) : 95%N ∉ cleanName raw.
Proof.
  destruct (first_occurrence 95%N raw) as [H|(p & t & -> & H)].
  - by rewrite cleanName_free.
  - by rewrite cleanName_first.
Qed.

(** C1. [cleanName raw] is the part of [raw] before its first ["_"]: index 0
    of the split always exists and is that part; a [raw] without ["_"] comes
    back unchanged; and the empty string gives the empty string. *)
Theorem cleanName_prefix_before_first_underscore (raw : jsstring) :
  split underscore raw !! 0%nat = Some (cleanName raw)
  ∧ (∀ p t : jsstring, raw = p ++ underscore ++ t → 95%N ∉ p → cleanName raw = p)
  ∧ (95%N ∉ raw → cleanName raw = raw)
  ∧ cleanName [] = [].
Proof.
  split; [apply split_head|].
  split; [|split].
  - intros p t -> Hp. rewrite underscore_unit. by apply cleanName_first.
  - apply cleanName_free.
  - reflexivity.
Qed.

(** C8. Cleaning a cleaned name changes nothing. *)
Theorem cleanName_idempotent (x : jsstring) :
  cleanName (cleanName x) = cleanName x.
Proof. apply cleanName_free, cleanName_has_no_underscore. Qed.

(** C9. A raw name that starts with ["_"] is not empty, yet its cleaned
    name is the empty string. *)
Theorem cleanName_leading_underscore_empty (raw : jsstring) :
  starts_with underscore raw = true → raw ≠ [] ∧ cleanName raw = [].
Proof.
  rewrite underscore_unit. destruct raw as [|c rest]; [done|].
  rewrite starts_with_one. intros Hc%bool_decide_eq_true. subst c.
  split; [done|]. by apply (cleanName_first [] rest), not_elem_of_nil.
Qed.

(** The name ["_112"]. *)
Lemma cleanName_leading_underscore_empty_witness :
  lit "_112" ≠ [] ∧ cleanName (lit "_112") = [].
Proof. apply cleanName_leading_underscore_empty. reflexivity. Defined.

(** ** [[...new Set(xs)]] *)

Section NewSetFacts.
Context {A : Type} `{EqDecision A}.
Implicit Types xs held : list A.

Lemma spread_new_Set_snoc xs x :
  spread_new_Set (xs ++ [x]) = set_add (spread_new_Set xs) x.
Proof. unfold spread_new_Set. by rewrite foldl_app. Qed.

Lemma elem_of_set_add held x y : y ∈ set_add held x ↔ y ∈ held ∨ y = x.
Proof.
  unfold set_add. case_decide as Hx.
  - split; [by left|]. intros [?| ->]; done.
  - rewrite elem_of_app, list_elem_of_singleton. done.
Qed.

Lemma elem_of_spread_new_Set xs y : y ∈ spread_new_Set xs ↔ y ∈ xs.
Proof.
  induction xs as [|x xs IH] using rev_ind; [done|].
  rewrite spread_new_Set_snoc, elem_of_set_add, IH.
  rewrite elem_of_app, list_elem_of_singleton. done.
Qed.

Lemma NoDup_spread_new_Set xs : NoDup (spread_new_Set xs).
Proof.
  induction xs as [|x xs IH] using rev_ind; [constructor|].
  rewrite spread_new_Set_snoc. unfold set_add. case_decide as Hx; [done|].
  apply NoDup_app. split_and!; [done| |apply NoDup_singleton].
  intros y Hy ->%list_elem_of_singleton. done.
Qed.

Lemma first_index_lt x xs m : first_index x xs = Some m → (m < length xs)%nat.
Proof.
  revert m. induction xs as [|y ys IH]; intros m; [done|].
  cbn [first_index length]. case_decide.
  - intros [= <-]. lia.
  - destruct (first_index x ys) as [k|]; [|done].
    intros [= <-]. specialize (IH k eq_refl). lia.
Qed.

Lemma first_index_elem x xs : x ∈ xs → is_Some (first_index x xs).
Proof.
  induction xs as [|y ys IH]; [by intros ?%elem_of_nil|].
  intros Hx. cbn [first_index]. case_decide as Hxy; [done|].
  apply elem_of_cons in Hx as [?|Hx]; [done|].
  destruct (IH Hx) as [k ->]. done.
Qed.

Lemma first_index_app_l x xs ys m :
  first_index x xs = Some m → first_index x (xs ++ ys) = Some m.
Proof.
  revert m. induction xs as [|y xs IH]; intros m; [done|].
  cbn [first_index app]. case_decide; [done|].
  destruct (first_index x xs) as [k|]; [|done].
  intros [= <-]. by rewrite (IH k eq_refl).
Qed.

Lemma first_index_fresh x xs :
  x ∉ xs → first_index x (xs ++ [x]) = Some (length xs).
Proof.
  induction xs as [|y xs IH]; intros Hx.
  - cbn. by rewrite decide_True.
  - apply not_elem_of_cons in Hx as [Hxy Hx].
    cbn [first_index app length]. rewrite decide_False by done.
    by rewrite (IH Hx).
Qed.

Lemma spread_new_Set_order xs :
  first_occurrence_order xs (spread_new_Set xs).
Proof.
  induction xs as [|x xs IH] using rev_ind.
  - intros i j a b _ Hi. done.
  - rewrite spread_new_Set_snoc. unfold set_add.
    assert (Hold : first_occurrence_order (xs ++ [x]) (spread_new_Set xs)).
    { intros i j a b Hij Ha Hb.
      destruct (IH i j a b Hij Ha Hb) as (m & n & Hm & Hn & Hmn).
      exists m, n. split_and!; [by apply first_index_app_l..|done]. }
    case_decide as Hx; [done|].
    intros i j a b Hij Ha Hb.
    destruct (decide (j < length (spread_new_Set xs))%nat) as [Hj|Hj].
    + rewrite lookup_app_l in Ha by lia. rewrite lookup_app_l in Hb by done.
      by apply (Hold i j).
    + assert (i < length (spread_new_Set xs))%nat as Hi.
      { apply lookup_lt_Some in Hb. rewrite length_app in Hb.
        cbn in Hb. lia. }
      rewrite lookup_app_l in Ha by done.
      rewrite lookup_app_r in Hb by lia.
      apply list_lookup_singleton_Some in Hb as [_ <-].
      assert (a ∈ xs) as Haxs.
      { apply elem_of_spread_new_Set. by eapply list_elem_of_lookup_2. }
      destruct (first_index_elem a xs Haxs) as [m Hm].
      exists m, (length xs). split_and!.
      * by apply first_index_app_l.
      * apply first_index_fresh. by rewrite <- elem_of_spread_new_Set.
      * by eapply first_index_lt.
Qed.
End NewSetFacts.

(** ** The cascade: districts of a state, blocks of a district *)

Lemma cleaned_matching_districts (raw : list Raw.t) (sel : jsstring) :
  Raw.district <$> filter (λ r, Raw.state r = sel) (Raw.cleaned <$> raw)
  = matching_districts raw sel.
Proof.
  unfold matching_districts. induction raw as [|r raw IH]; [done|].
  rewrite fmap_cons, !filter_cons. cbn [Raw.cleaned Raw.state].
  case_decide; [|done]. rewrite !fmap_cons, IH. done.
Qed.

Lemma spread_districts_of (raw : list Raw.t) (sel : jsstring) :
  districts_of raw sel (spread_new_Set (matching_districts raw sel)).
Proof.
  split_and!.
  - apply NoDup_spread_new_Set.
  - intros d. rewrite elem_of_spread_new_Set. unfold matching_districts.
    rewrite list_elem_of_fmap. split.
    + intros (r & -> & [Hsel Hr]%list_elem_of_filter). by exists r.
    + intros (r & Hr & Hsel & <-). exists r. split; [done|].
      by apply list_elem_of_filter.
  - apply spread_new_Set_order.
  - intros Hnone. unfold matching_districts.
    induction raw as [|r raw IH]; [done|].
    rewrite filter_cons_False by (apply Hnone; left).
    apply IH. intros r' Hr'. apply Hnone. by right.
Qed.

Lemma Explore_state_effect_districts {number : Type}
    (st : Explore.State number) (sel : jsstring) :
  sel ≠ [] →
  Explore.districts
    (Explore.filterOptions (Explore.state_effect (Explore.select_state sel st)))
  = spread_new_Set
      (Raw.district <$> filter (λ r, Raw.state r = sel) (Explore.rawFilters st)).
Proof. intros Hsel. by destruct sel. Qed.

Lemma Report_state_effect_districts (st : Report.State) (sel : jsstring) :
  sel ≠ [] →
  Report.districts
    (Report.filterOptions (Report.state_effect (Report.select_state sel st)))
  = spread_new_Set
      (Raw.district <$> filter (λ r, Raw.state r = sel) (Report.rawFilters st)).
Proof. intros Hsel. by destruct sel. Qed.

(** What [load] and [loadFilters] leave in [rawFilters]. *)
Lemma Explore_load_rawFilters {number : Type}
    (getData : jsstring → outcome Explore.AvailableFilters)
    (st : Explore.State number) (res : Explore.AvailableFilters)
    (raw : list Raw.t) :
  getData (lit "/available-filters") = Resolved res →
  Explore.res_raw res = Some raw →
  Explore.rawFilters (Explore.load getData st) = Raw.cleaned <$> raw.
Proof.
  intros Hres Hraw. unfold Explore.load. rewrite Hres, Hraw.
  by destruct (Explore.res_states res).
Qed.

Lemma Report_loadFilters_rawFilters
    (getData : jsstring → outcome Report.AvailableFilters)
    (st : Report.State) (res : Report.AvailableFilters) (raw : list Raw.t) :
  getData (lit "/available-filters") = Resolved res →
  Report.res_raw res = Some raw →
  Report.rawFilters (Report.loadFilters getData st) = Raw.cleaned <$> raw.
Proof. intros Hres Hraw. unfold Report.loadFilters. by rewrite Hres, Hraw. Qed.

(** With no state selected the effect returns at once and the options stay
    as they were. *)
Lemma Explore_state_effect_unselected {number : Type}
    (st : Explore.State number) :
  Explore.state (Explore.filters st) = [] → Explore.state_effect st = st.
Proof. unfold Explore.state_effect. by intros ->. Qed.

Lemma Report_state_effect_unselected (st : Report.State) :
  Report.state (Report.reportConfig st) = [] → Report.state_effect st = st.
Proof. unfold Report.state_effect. by intros ->. Qed.

(** C4. On both pages, once a state [sel] is selected the district options
    are the cleaned district names of the backend rows whose cleaned state is
    [sel]: each name once, in the order of first occurrence, and no options
    at all (not a failure) when no row has that state. *)
Theorem district_options_of_selected_state
    (number : Type) (est : Explore.State number) (rst : Report.State)
    (raw : list Raw.t) (sel : jsstring) :
  sel ≠ [] →
  Explore.rawFilters est = Raw.cleaned <$> raw →
  Report.rawFilters rst = Raw.cleaned <$> raw →
  districts_of raw sel
    (Explore.districts
       (Explore.filterOptions
          (Explore.state_effect (Explore.select_state sel est))))
  ∧ districts_of raw sel
      (Report.districts
         (Report.filterOptions
            (Report.state_effect (Report.select_state sel rst)))).
Proof.
  intros Hsel He Hr.
  rewrite Explore_state_effect_districts, Report_state_effect_districts by done.
  rewrite He, Hr, cleaned_matching_districts.
  split; apply spread_districts_of.
Qed.

Example sample_explore_districts :
  Explore.districts
    (Explore.filterOptions
       (Explore.state_effect (Explore.select_state (lit "Gujarat") sample_explore)))
  = [lit "Mehsana"; lit "Patan"].
Proof. vm_compute. reflexivity. Qed.

(** The sample rows loaded on both pages, state ["Gujarat"]. *)
Lemma district_options_of_selected_state_witness :
  districts_of sample_raw (lit "Gujarat")
    (Explore.districts
       (Explore.filterOptions
          (Explore.state_effect
             (Explore.select_state (lit "Gujarat") sample_explore))))
  ∧ districts_of sample_raw (lit "Gujarat")
      (Report.districts
         (Report.filterOptions
            (Report.state_effect
               (Report.select_state (lit "Gujarat") sample_report)))).
Proof.
  apply (district_options_of_selected_state unit sample_explore sample_report
           sample_raw (lit "Gujarat")).
  - vm_compute. discriminate.
  - reflexivity.
  - reflexivity.
Defined.

(** C10. On both pages the block options for a selected district are
    computed from the district alone (the rows are filtered by district and
    nothing else): two states of the page that hold the same rows give the
    same block options for the same district, whatever state each has
    selected. *)
Theorem block_options_ignore_state
    (number : Type) (e1 e2 : Explore.State number) (r1 r2 : Report.State)
    (d : jsstring) :
  d ≠ [] →
  Explore.rawFilters e1 = Explore.rawFilters e2 →
  Report.rawFilters r1 = Report.rawFilters r2 →
  Explore.blocks
    (Explore.filterOptions
       (Explore.district_effect (Explore.select_district d e1)))
  = spread_new_Set
      (Raw.block <$> filter (λ r, Raw.district r = d) (Explore.rawFilters e1))
  ∧ Explore.blocks
      (Explore.filterOptions
         (Explore.district_effect (Explore.select_district d e1)))
    = Explore.blocks
        (Explore.filterOptions
           (Explore.district_effect (Explore.select_district d e2)))
  ∧ Report.blocks
      (Report.filterOptions
         (Report.district_effect (Report.select_district d r1)))
    = spread_new_Set
        (Raw.block <$> filter (λ r, Raw.district r = d) (Report.rawFilters r1))
  ∧ Report.blocks
      (Report.filterOptions
         (Report.district_effect (Report.select_district d r1)))
    = Report.blocks
        (Report.filterOptions
           (Report.district_effect (Report.select_district d r2))).
Proof.
  intros Hd He Hr. destruct d as [|c d]; [done|].
  unfold Explore.district_effect, Report.district_effect.
  cbn. rewrite He, Hr. done.
Qed.

Example sample_blocks_merge_states :
  Explore.blocks
    (Explore.filterOptions
       (Explore.district_effect
          (Explore.select_district (lit "Patan")
             (Explore.state_effect
                (Explore.select_state (lit "Gujarat") sample_explore)))))
  = [lit "Sami"; lit "Neem"].
Proof. vm_compute. reflexivity. Qed.

(** District ["Patan"] under state ["Gujarat"] and under ["Rajasthan"]. *)
Lemma block_options_ignore_state_witness :
  Explore.state (Explore.filters (Explore.select_state (lit "Gujarat") sample_explore))
  ≠ Explore.state (Explore.filters (Explore.select_state (lit "Rajasthan") sample_explore))
  ∧ Explore.blocks
      (Explore.filterOptions
         (Explore.district_effect
            (Explore.select_district (lit "Patan")
               (Explore.select_state (lit "Gujarat") sample_explore))))
    = Explore.blocks
        (Explore.filterOptions
           (Explore.district_effect
              (Explore.select_district (lit "Patan")
                 (Explore.select_state (lit "Rajasthan") sample_explore))))
  ∧ Report.blocks
      (Report.filterOptions
         (Report.district_effect
            (Report.select_district (lit "Patan")
               (Report.select_state (lit "Gujarat") sample_report))))
    = Report.blocks
        (Report.filterOptions
           (Report.district_effect
              (Report.select_district (lit "Patan")
                 (Report.select_state (lit "Rajasthan") sample_report)))).
Proof.
  split; [vm_compute; discriminate|].
  refine (let H := block_options_ignore_state unit
                     (Explore.select_state (lit "Gujarat") sample_explore)
                     (Explore.select_state (lit "Rajasthan") sample_explore)
                     (Report.select_state (lit "Gujarat") sample_report)
                     (Report.select_state (lit "Rajasthan") sample_report)
                     (lit "Patan") _ _ _ in
          conj (proj1 (proj2 H)) (proj2 (proj2 (proj2 H)))).
  - vm_compute. discriminate.
  - reflexivity.
  - reflexivity.
Defined.

(** ** The record search *)

Lemma foldl_append_truthy (acc kvs : list (jsstring * jsstring)) :
  foldl (λ qp kv, if truthy kv.2 then URLSearchParams.append qp kv.1 kv.2
                  else qp) acc kvs
  = acc ++ filter (λ kv, kv.2 ≠ []) kvs.
Proof.
  revert acc. induction kvs as [|[k v] kvs IH]; intros acc.
  - by rewrite app_nil_r.
  - cbn [foldl]. rewrite IH. cbn [fst snd]. destruct v as [|c v].
    + by rewrite filter_cons_False by (by intros []).
    + rewrite filter_cons_True by done.
      unfold URLSearchParams.append. cbn [truthy]. by rewrite <- app_assoc.
Qed.

(** C2. The search sends exactly the criteria that are filled in: the
    parameters of the query are the entries of [filters] whose value is not
    the empty string, each with its current value and in the order of the
    fields; a field left empty adds nothing; and that query is the request
    issued. *)
Theorem search_sends_exactly_nonempty_fields
    (number : Type)
    (getData : jsstring → outcome (list (Explore.Row.t number)))
    (st : Explore.State number) :
  Explore.search_params (Explore.filters st)
  = filter (λ kv, kv.2 ≠ []) (Explore.entries (Explore.filters st))
  ∧ (∀ k v : jsstring,
        (k, v) ∈ Explore.search_params (Explore.filters st) ↔
        (k, v) ∈ Explore.entries (Explore.filters st) ∧ v ≠ [])
  ∧ Explore.requests (Explore.handleSearch getData st)
    = Explore.requests st ++
        [lit "/water-level?" ++
         URLSearchParams.toString
           (Explore.search_params (Explore.filters st))].
Proof.
  assert (Explore.search_params (Explore.filters st)
          = filter (λ kv, kv.2 ≠ []) (Explore.entries (Explore.filters st)))
    as Hqp by apply foldl_append_truthy.
  split_and!; [done| |].
  - intros k v. rewrite Hqp, list_elem_of_filter. cbn [snd]. tauto.
  - unfold Explore.handleSearch, Explore.search_url.
    by destruct (getData _).
Qed.

Lemma chart_years {number : Type} (res : list (Explore.Row.t number)) :
  Explore.Point.year <$> (Explore.to_point <$> res) = Explore.Row.year <$> res.
Proof. rewrite <- list_fmap_compose. done. Qed.

Lemma handleSearch_resolved {number : Type}
    (getData : jsstring → outcome (list (Explore.Row.t number)))
    (st : Explore.State number) (res : list (Explore.Row.t number)) :
  getData (Explore.search_url (Explore.filters st)) = Resolved res →
  Explore.rows (Explore.handleSearch getData st) = res
  ∧ Explore.chartData (Explore.handleSearch getData st)
    = Explore.to_point <$> res.
Proof. intros H. unfold Explore.handleSearch. by rewrite H. Qed.

(** C3, as stated, fails: the series follows the order of the result and is
    not sorted by the page.  For a result with the years 2021, 2020 the
    series has the years 2021, 2020. *)
Lemma chart_series_not_sorted_by_year :
  Explore.Point.year <$>
    Explore.chartData
      (Explore.handleSearch (λ _, Resolved unsorted_rows) (Explore.initial Z))
  = [2021; 2020]%Z
  ∧ ¬ Sorted Z.le
        (Explore.Point.year <$>
           Explore.chartData
             (Explore.handleSearch (λ _, Resolved unsorted_rows)
                (Explore.initial Z))).
Proof.
  split; [reflexivity|].
  intros Hs. cbn in Hs.
  apply Sorted_inv in Hs as [_ Hhd]. apply HdRel_inv in Hhd. lia.
Qed.

(** C3, amended. The series holds one (year, level) pair per record of the
    result, in the order of the result; records sharing a year each keep
    their own pair; and the series is ascending by year whenever the result
    is. *)
Theorem chart_series_follows_result
    (number : Type)
    (getData : jsstring → outcome (list (Explore.Row.t number)))
    (st : Explore.State number) (res : list (Explore.Row.t number)) :
  getData (Explore.search_url (Explore.filters st)) = Resolved res →
  length (Explore.chartData (Explore.handleSearch getData st)) = length res
  ∧ (∀ (i : nat) (r : Explore.Row.t number),
        res !! i = Some r →
        Explore.chartData (Explore.handleSearch getData st) !! i
        = Some {| Explore.Point.year := Explore.Row.year r;
                  Explore.Point.level := Explore.Row.water_level r |})
  ∧ (Sorted Z.le (Explore.Row.year <$> res) →
     Sorted Z.le
       (Explore.Point.year <$>
          Explore.chartData (Explore.handleSearch getData st))).
Proof.
  intros H. destruct (handleSearch_resolved getData st res H) as [_ ->].
  split_and!.
  - apply length_fmap.
  - intros i r Hr. rewrite list_lookup_fmap, Hr. done.
  - by rewrite chart_years.
Qed.

(** A sorted result with two records of 2020: both points are kept. *)
Lemma chart_series_follows_result_witness :
  Explore.chartData
    (Explore.handleSearch (λ _, Resolved sorted_rows) (Explore.initial Z))
    !! 1%nat
  = Some {| Explore.Point.year := 2020; Explore.Point.level := 131%Z |}
  ∧ length
      (Explore.chartData
         (Explore.handleSearch (λ _, Resolved sorted_rows) (Explore.initial Z)))
    = 3%nat.
Proof.
  destruct (chart_series_follows_result Z (λ _, Resolved sorted_rows)
              (Explore.initial Z) sorted_rows eq_refl) as (Hlen & Hnth & _).
  split; [exact (Hnth 1%nat _ eq_refl)|exact Hlen].
Defined.

(** ** The report form *)

Lemma missing_nil_iff (c : Report.Config) :
  Report.missing c = [] ↔
  Report.state c ≠ [] ∧ Report.district c ≠ [] ∧ Report.reportType c ≠ [].
Proof.
  unfold Report.missing.
  destruct c as [[|? ?] [|? ?] ? [|? ?] ? ? ? ?]; cbn;
    (split; [try done|]); try (intros (? & ? & ?); done); done.
Qed.

Lemma guard_missing (c : Report.Config) :
  negb (truthy (Report.state c)) || negb (truthy (Report.district c))
  || negb (truthy (Report.reportType c))
  = bool_decide (Report.missing c ≠ []).
Proof.
  destruct c as [[|? ?] [|? ?] ? [|? ?] ? ? ? ?]; reflexivity.
Qed.

(** C5, as stated, fails: the validation error is one fixed toast, the same
    whichever field is missing, so no reading of it names the offending
    field. *)
Lemma validation_error_names_no_field :
  Report.missing (Report.reportConfig report_no_state) = [Report.FState]
  ∧ Report.missing (Report.reportConfig report_no_district)
    = [Report.FDistrict]
  ∧ Report.toasts (Report.handleGenerateReport report_backend report_no_state)
    = [Report.missing_information]
  ∧ Report.toasts
      (Report.handleGenerateReport report_backend report_no_district)
    = [Report.missing_information]
  ∧ ¬ ∃ name_of : Toast → Report.Field,
        ∀ st : Report.State,
          Report.missing (Report.reportConfig st) ≠ [] →
          ∃ t : Toast,
            last (Report.toasts
                    (Report.handleGenerateReport report_backend st)) = Some t
            ∧ name_of t ∈ Report.missing (Report.reportConfig st).
Proof.
  split_and!; [reflexivity..|].
  intros [name_of H].
  destruct (H report_no_state) as (t1 & Ht1 & Hin1); [done|].
  destruct (H report_no_district) as (t2 & Ht2 & Hin2); [done|].
  cbn in Ht1, Ht2. injection Ht1 as <-. injection Ht2 as <-.
  change (Report.missing (Report.reportConfig report_no_state))
    with [Report.FState] in Hin1.
  change (Report.missing (Report.reportConfig report_no_district))
    with [Report.FDistrict] in Hin2.
  apply list_elem_of_singleton in Hin1, Hin2. congruence.
Qed.

(** C5, amended. When the state, the district or the report type is empty
    the handler only shows the fixed toast "Missing Information / Please
    fill all required fields." and sends nothing; when the three are filled
    in it posts the configuration to [/generate_report]. *)
Theorem report_needs_state_district_type
    (postData : Report.Request → outcome (option Report.Result))
    (st : Report.State) :
  (Report.missing (Report.reportConfig st) ≠ [] →
   Report.toasts (Report.handleGenerateReport postData st)
   = Report.toasts st ++ [Report.missing_information]
   ∧ Report.requests (Report.handleGenerateReport postData st)
     = Report.requests st
   ∧ Report.downloads (Report.handleGenerateReport postData st)
     = Report.downloads st)
  ∧ (Report.missing (Report.reportConfig st) = [] →
     Report.requests (Report.handleGenerateReport postData st)
     = Report.requests st ++
         [{| Report.endpoint := lit "/generate_report";
             Report.body := Report.reportConfig st |}]).
Proof.
  unfold Report.handleGenerateReport. rewrite guard_missing. split.
  - intros Hm. by rewrite bool_decide_true.
  - intros Hm. rewrite bool_decide_false by (by intros []).
    by destruct (postData _).
Qed.

(** A form without a state, and a complete form. *)
Lemma report_needs_state_district_type_witness :
  Report.requests (Report.handleGenerateReport report_backend report_no_state)
  = []
  ∧ Report.requests (Report.handleGenerateReport report_backend report_complete)
    = [{| Report.endpoint := lit "/generate_report";
          Report.body := Report.reportConfig report_complete |}].
Proof.
  split.
  - refine (proj1 (proj2 (proj1 (report_needs_state_district_type
                                   report_backend report_no_state) _))).
    vm_compute. discriminate.
  - refine (proj2 (report_needs_state_district_type
                     report_backend report_complete) _).
    reflexivity.
Defined.

Example report_download_link :
  Report.downloads (Report.handleGenerateReport report_backend report_complete)
  = [{| Report.href := lit "http://127.0.0.1:8000/reports/Gujarat/Mehsana.pdf";
        Report.download := lit "Mehsana.pdf" |}].
Proof. vm_compute. reflexivity. Qed.

(** ** The ask form *)

Lemma trim_start_blank (q : jsstring) :
  Forall (λ c, is_whitespace c = true) q → trim_start q = [].
Proof.
  induction 1 as [|c q Hc _ IH]; [done|].
  cbn [trim_start]. by rewrite Hc.
Qed.

Lemma trim_blank (q : jsstring) :
  Forall (λ c, is_whitespace c = true) q → trim q = [].
Proof. intros H. unfold trim. by rewrite trim_start_blank. Qed.

(** C7. Submitting an empty or whitespace-only question does nothing: the
    state after the handler is the state before it, so no request is sent
    and no message is added. *)
Theorem blank_question_is_ignored
    (postData : Ask.Request → outcome (option Ask.Response))
    (st : Ask.State) :
  Forall (λ c, is_whitespace c = true) (Ask.query st) →
  Ask.handleSubmit postData st = st
  ∧ Ask.requests (Ask.handleSubmit postData st) = Ask.requests st
  ∧ Ask.messages (Ask.handleSubmit postData st) = Ask.messages st.
Proof.
  intros Hq. assert (Ask.handleSubmit postData st = st) as ->; [|done].
  unfold Ask.handleSubmit. by rewrite trim_blank.
Qed.

(** A question of blanks only, and the empty question. *)
Lemma blank_question_is_ignored_witness :
  Ask.handleSubmit (λ _, Rejected) (ask_with blank_question)
  = ask_with blank_question
  ∧ Ask.handleSubmit (λ _, Rejected) (ask_with []) = ask_with [].
Proof.
  split.
  - apply (blank_question_is_ignored (λ _, Rejected) (ask_with blank_question)).
    repeat constructor.
  - apply (blank_question_is_ignored (λ _, Rejected) (ask_with [])).
    constructor.
Defined.

Lemma botReply_displayable (response : option Ask.Response) :
  Ask.botReply response ≠ [].
Proof.
  destruct response as [[[[|c a]|]]|]; done.
Qed.

(** C6. For a submitted question, a failed call to [/ask_ai] is caught: the
    chat gets the user's message followed by a bot message with the fixed
    text "Unable to reach AI backend ...", which differs from what the
    normal path shows when the backend sends no answer, and an error toast
    is shown only then; whatever the backend does, the chat ends with a
    non-empty bot message. *)
Theorem failed_ask_is_a_bot_message
    (postData : Ask.Request → outcome (option Ask.Response))
    (st : Ask.State) :
  trim (Ask.query st) ≠ [] →
  (∃ reply : jsstring,
      reply ≠ []
      ∧ Ask.messages (Ask.handleSubmit postData st)
        = Ask.messages st ++
            [{| Ask.type := Ask.user; Ask.content := Ask.query st |};
             {| Ask.type := Ask.bot; Ask.content := reply |}])
  ∧ (postData (ask_request st) = Rejected →
     Ask.messages (Ask.handleSubmit postData st)
     = Ask.messages st ++
         [{| Ask.type := Ask.user; Ask.content := Ask.query st |};
          {| Ask.type := Ask.bot; Ask.content := Ask.unreachable_reply |}]
     ∧ last (Ask.toasts (Ask.handleSubmit postData st))
       = Some {| title := lit "Error";
                 description := lit "Backend not responding.";
                 variant := Destructive |})
  ∧ (∀ response : option Ask.Response,
        postData (ask_request st) = Resolved response →
        Ask.messages (Ask.handleSubmit postData st)
        = Ask.messages st ++
            [{| Ask.type := Ask.user; Ask.content := Ask.query st |};
             {| Ask.type := Ask.bot; Ask.content := Ask.botReply response |}]
        ∧ Forall (λ t, variant t = Default)
            (drop (length (Ask.toasts st))
               (Ask.toasts (Ask.handleSubmit postData st))))
  ∧ Ask.unreachable_reply ≠ Ask.fallback_reply.
Proof.
  intros Hq. unfold Ask.handleSubmit, ask_request.
  destruct (trim (Ask.query st)) as [|c q] eqn:Htrim; [done|]. cbn [truthy negb].
  split_and!.
  - destruct (postData _) as [response|].
    + exists (Ask.botReply response). split; [apply botReply_displayable|].
      cbn. by rewrite <- app_assoc.
    + exists Ask.unreachable_reply. split; [done|].
      cbn. by rewrite <- app_assoc.
  - intros ->. cbn. rewrite <- app_assoc. split; [done|].
    by rewrite last_app.
  - intros response ->. cbn. rewrite <- app_assoc. split; [done|].
    rewrite drop_app_length. by repeat constructor.
  - done.
Qed.

(** A question asked while the backend is down. *)
Lemma failed_ask_is_a_bot_message_witness :
  Ask.messages (Ask.handleSubmit (λ _, Rejected) (ask_with aquifer_question))
  = [{| Ask.type := Ask.bot; Ask.content := Ask.greeting |};
     {| Ask.type := Ask.user; Ask.content := aquifer_question |};
     {| Ask.type := Ask.bot; Ask.content := Ask.unreachable_reply |}].
Proof.
  refine (proj1 (proj1 (proj2 (failed_ask_is_a_bot_message (λ _, Rejected)
                                 (ask_with aquifer_question) _)) eq_refl)).
  vm_compute. discriminate.
Defined.

(** ["Mehsana_5_7"] and ["Kadi"]. *)
Lemma cleanName_prefix_before_first_underscore_witness :
  cleanName (lit "Mehsana_5_7") = lit "Mehsana"
  ∧ cleanName (lit "Kadi") = lit "Kadi".
Proof.
  split.
  - refine (proj1 (proj2 (cleanName_prefix_before_first_underscore
                            (lit "Mehsana_5_7")))
              (lit "Mehsana") (lit "5_7") eq_refl _).
    apply (bool_decide_unpack _). vm_compute. exact I.
  - refine (proj1 (proj2 (proj2 (cleanName_prefix_before_first_underscore
                                   (lit "Kadi")))) _).
    apply (bool_decide_unpack _). vm_compute. exact I.
Defined.

(** Only the state is chosen. *)
Lemma search_sends_exactly_nonempty_fields_witness :
  Explore.search_params (Explore.filters sample_filters)
  = [(lit "state", lit "Tamil Nadu")]
  ∧ Explore.requests
      (Explore.handleSearch (λ _, Resolved sorted_rows) sample_filters)
    = [lit "/water-level?state=Tamil+Nadu"].
Proof.
  destruct (search_sends_exactly_nonempty_fields Z
              (λ _, Resolved sorted_rows) sample_filters) as (Hqp & _ & Hreq).
  split; [exact Hqp|exact Hreq].
Defined.


(** * Further properties of the pages *)

(** ** The cascade *)

Lemma cleaned_matching_blocks (raw : list Raw.t) (sel : jsstring) :
  Raw.block <$> filter (λ r, Raw.district r = sel) (Raw.cleaned <$> raw)
  = matching_blocks raw sel.
Proof.
  unfold matching_blocks. induction raw as [|r raw IH]; [done|].
  rewrite fmap_cons, !filter_cons. cbn [Raw.cleaned Raw.district].
  case_decide; [|done]. rewrite !fmap_cons, IH. done.
Qed.

Lemma spread_blocks_of (raw : list Raw.t) (sel : jsstring) :
  blocks_of raw sel (spread_new_Set (matching_blocks raw sel)).
Proof.
  split_and!.
  - apply NoDup_spread_new_Set.
  - intros b. rewrite elem_of_spread_new_Set. unfold matching_blocks.
    rewrite list_elem_of_fmap. split.
    + intros (r & -> & [Hsel Hr]%list_elem_of_filter). by exists r.
    + intros (r & Hr & Hsel & <-). exists r. split; [done|].
      by apply list_elem_of_filter.
  - apply spread_new_Set_order.
  - intros Hnone. unfold matching_blocks.
    induction raw as [|r raw IH]; [done|].
    rewrite filter_cons_False by (apply Hnone; left).
    apply IH. intros r' Hr'. apply Hnone. by right.
Qed.

Lemma Explore_district_effect_blocks {number : Type}
    (st : Explore.State number) (sel : jsstring) :
  sel ≠ [] →
  Explore.blocks
    (Explore.filterOptions
       (Explore.district_effect (Explore.select_district sel st)))
  = spread_new_Set
      (Raw.block <$> filter (λ r, Raw.district r = sel) (Explore.rawFilters st)).
Proof. intros Hsel. by destruct sel. Qed.

Lemma Report_district_effect_blocks (st : Report.State) (sel : jsstring) :
  sel ≠ [] →
  Report.blocks
    (Report.filterOptions
       (Report.district_effect (Report.select_district sel st)))
  = spread_new_Set
      (Raw.block <$> filter (λ r, Raw.district r = sel) (Report.rawFilters st)).
Proof. intros Hsel. by destruct sel. Qed.

(** X1. On both pages, once a district [sel] is selected the block options
    are the cleaned block names of the backend rows whose cleaned district is
    [sel]: each name once, in the order of first occurrence, and none when no
    row has that district. *)
Theorem block_options_of_selected_district
    (number : Type) (est : Explore.State number) (rst : Report.State)
    (raw : list Raw.t) (sel : jsstring) :
  sel ≠ [] →
  Explore.rawFilters est = Raw.cleaned <$> raw →
  Report.rawFilters rst = Raw.cleaned <$> raw →
  blocks_of raw sel
    (Explore.blocks
       (Explore.filterOptions
          (Explore.district_effect (Explore.select_district sel est))))
  ∧ blocks_of raw sel
      (Report.blocks
         (Report.filterOptions
            (Report.district_effect (Report.select_district sel rst)))).
Proof.
  intros Hsel He Hr.
  rewrite Explore_district_effect_blocks, Report_district_effect_blocks by done.
  rewrite He, Hr, cleaned_matching_blocks.
  split; apply spread_blocks_of.
Qed.

(** The sample rows, district ["Patan"]: blocks of two states. *)
Lemma block_options_of_selected_district_witness :
  blocks_of sample_raw (lit "Patan")
    (Explore.blocks
       (Explore.filterOptions
          (Explore.district_effect
             (Explore.select_district (lit "Patan") sample_explore))))
  ∧ blocks_of sample_raw (lit "Patan")
      (Report.blocks
         (Report.filterOptions
            (Report.district_effect
               (Report.select_district (lit "Patan") sample_report)))).
Proof.
  apply (block_options_of_selected_district unit sample_explore sample_report
           sample_raw (lit "Patan")).
  - vm_compute. discriminate.
  - reflexivity.
  - reflexivity.
Defined.

(** X2. No loaded row is out of reach of the cascade: on both pages the
    cleaned district of every backend row is among the district options of
    its cleaned state, and its cleaned block among the block options of its
    cleaned district (a name that cleans to the empty string cannot be
    selected). *)
Theorem cascade_reaches_every_row
    (number : Type) (est : Explore.State number) (rst : Report.State)
    (raw : list Raw.t) (r : Raw.t) :
  r ∈ raw →
  Explore.rawFilters est = Raw.cleaned <$> raw →
  Report.rawFilters rst = Raw.cleaned <$> raw →
  (cleanName (Raw.state r) ≠ [] →
   cleanName (Raw.district r)
   ∈ Explore.districts
       (Explore.filterOptions
          (Explore.state_effect
             (Explore.select_state (cleanName (Raw.state r)) est)))
   ∧ cleanName (Raw.district r)
     ∈ Report.districts
         (Report.filterOptions
            (Report.state_effect
               (Report.select_state (cleanName (Raw.state r)) rst))))
  ∧ (cleanName (Raw.district r) ≠ [] →
     cleanName (Raw.block r)
     ∈ Explore.blocks
         (Explore.filterOptions
            (Explore.district_effect
               (Explore.select_district (cleanName (Raw.district r)) est)))
     ∧ cleanName (Raw.block r)
       ∈ Report.blocks
           (Report.filterOptions
              (Report.district_effect
                 (Report.select_district (cleanName (Raw.district r)) rst)))).
Proof.
  intros Hr He Hrep. split; intros Hsel.
  - rewrite Explore_state_effect_districts, Report_state_effect_districts
      by done.
    rewrite He, Hrep, cleaned_matching_districts.
    assert (cleanName (Raw.district r)
            ∈ spread_new_Set
                (matching_districts raw (cleanName (Raw.state r)))); [|done].
    apply (spread_districts_of raw (cleanName (Raw.state r))). by exists r.
  - rewrite Explore_district_effect_blocks, Report_district_effect_blocks
      by done.
    rewrite He, Hrep, cleaned_matching_blocks.
    assert (cleanName (Raw.block r)
            ∈ spread_new_Set
                (matching_blocks raw (cleanName (Raw.district r)))); [|done].
    apply (spread_blocks_of raw (cleanName (Raw.district r))). by exists r.
Qed.

(** ** What every reachable state of a page satisfies *)

Lemma Forall_cleanName (names : list jsstring) :
  Forall underscore_free (cleanName <$> names).
Proof.
  apply Forall_fmap, Forall_forall. intros s _.
  apply cleanName_has_no_underscore.
Qed.

Lemma Forall_cleaned (raw : list Raw.t) :
  Forall row_underscore_free (Raw.cleaned <$> raw).
Proof.
  apply Forall_fmap, Forall_forall. intros r _.
  split_and!; apply cleanName_has_no_underscore.
Qed.

Lemma Forall_spread_new_Set {A : Type} `{EqDecision A}
    (P : A → Prop) (xs : list A) :
  Forall P xs → Forall P (spread_new_Set xs).
Proof.
  rewrite !Forall_forall. intros H x Hx. apply H.
  by apply elem_of_spread_new_Set.
Qed.

Lemma Forall_picked (Q : Raw.t → Prop) `{∀ r, Decision (Q r)}
    (pick : Raw.t → jsstring) (rows : list Raw.t) :
  (∀ r, row_underscore_free r → underscore_free (pick r)) →
  Forall row_underscore_free rows →
  Forall underscore_free (pick <$> filter Q rows).
Proof.
  intros Hpick Hrows. apply Forall_fmap, Forall_forall.
  intros r [_ Hr]%list_elem_of_filter. apply Hpick.
  by eapply Forall_forall in Hrows.
Qed.

Lemma Explore_step_clean {number : Type} (st : Explore.State number)
    (e : ExploreEvent number) :
  Explore_options_clean st → Explore_options_clean (Explore_step st e).
Proof.
  intros (Hs & Hd & Hb & Hraw & Hnd & Hnb).
  destruct e as [getData|v|v|v|v|v| | |getData]; cbn [Explore_step];
    try done.
  - unfold Explore.load.
    destruct (getData _) as [res|]; [|done].
    destruct (Explore.res_raw res) as [raw|]; [|done].
    destruct (Explore.res_states res) as [sts|].
    + split_and!; cbn; auto using Forall_cleanName, Forall_cleaned,
        Forall_nil_2, NoDup_nil_2.
    + split_and!; cbn; auto using Forall_cleaned.
  - unfold Explore.state_effect.
    destruct (truthy _); [|done].
    split_and!; cbn; auto using NoDup_spread_new_Set, NoDup_nil_2.
    apply Forall_spread_new_Set, Forall_picked; [|done]. by intros r (_ & ? & _).
  - unfold Explore.district_effect.
    destruct (truthy _); [|done].
    split_and!; cbn; auto using NoDup_spread_new_Set.
    apply Forall_spread_new_Set, Forall_picked; [|done]. by intros r (_ & _ & ?).
  - unfold Explore.handleSearch. by destruct (getData _).
Qed.

Lemma Report_step_clean (st : Report.State) (e : ReportEvent) :
  Report_options_clean st → Report_options_clean (Report_step st e).
Proof.
  intros (Hs & Hd & Hb & Hraw & Hnd & Hnb).
  destruct e as [getData|v|v|v|v|key checked| | |postData];
    cbn [Report_step]; try done.
  - unfold Report.loadFilters.
    destruct (getData _) as [res|]; [|done].
    split_and!; cbn; auto using Forall_cleanName, Forall_cleaned,
      Forall_nil_2, NoDup_nil_2.
  - unfold Report.state_effect.
    destruct (truthy _); [|done].
    split_and!; cbn; auto using NoDup_spread_new_Set, NoDup_nil_2.
    apply Forall_spread_new_Set, Forall_picked; [|done]. by intros r (_ & ? & _).
  - unfold Report.district_effect.
    destruct (truthy _); [|done].
    split_and!; cbn; auto using NoDup_spread_new_Set.
    apply Forall_spread_new_Set, Forall_picked; [|done]. by intros r (_ & _ & ?).
  - unfold Report.handleGenerateReport.
    destruct (_ || _); [done|]. by destruct (postData _).
Qed.

(** X3. Whatever happens on the Explore page or on the report page, in any
    order and whatever the backend answers, the state, district and block
    options and the stored rows hold only names without ["_"], and the
    district and block options hold no name twice. *)
Theorem options_always_clean
    (number : Type) (events : list (ExploreEvent number))
    (revents : list ReportEvent) :
  Explore_options_clean (Explore_run events)
  ∧ Report_options_clean (Report_run revents).
Proof.
  split.
  - unfold Explore_run. induction events as [|e events IH] using rev_ind.
    + split_and!; cbn; auto using NoDup_nil_2.
    + rewrite foldl_app. cbn [foldl]. by apply Explore_step_clean.
  - unfold Report_run. induction revents as [|e revents IH] using rev_ind.
    + split_and!; cbn; auto using NoDup_nil_2.
    + rewrite foldl_app. cbn [foldl]. by apply Report_step_clean.
Qed.

(** The third sample row: Gujarat_2 / Patan_3 / Sami_4. *)
Lemma cascade_reaches_every_row_witness :
  lit "Patan"
  ∈ Explore.districts
      (Explore.filterOptions
         (Explore.state_effect
            (Explore.select_state (lit "Gujarat") sample_explore)))
  ∧ lit "Sami"
    ∈ Report.blocks
        (Report.filterOptions
           (Report.district_effect
              (Report.select_district (lit "Patan") sample_report))).
Proof.
  pose proof (cascade_reaches_every_row unit sample_explore sample_report
                sample_raw
                {| Raw.state := lit "Gujarat_2"; Raw.district := lit "Patan_3";
                   Raw.block := lit "Sami_4" |}) as H.
  destruct H as [Hd Hb].
  - apply (bool_decide_unpack _). vm_compute. exact I.
  - reflexivity.
  - reflexivity.
  - split.
    + refine (proj1 (Hd _)). vm_compute. discriminate.
    + refine (proj2 (Hb _)). vm_compute. discriminate.
Defined.

(** ** The cascade effects as operations on the state *)

(** X4. Both cascade effects are idempotent on both pages: running an
    effect again on the state it produced changes nothing. *)
Theorem cascade_effects_idempotent
    (number : Type) (est : Explore.State number) (rst : Report.State) :
  Explore.state_effect (Explore.state_effect est) = Explore.state_effect est
  ∧ Explore.district_effect (Explore.district_effect est)
    = Explore.district_effect est
  ∧ Report.state_effect (Report.state_effect rst) = Report.state_effect rst
  ∧ Report.district_effect (Report.district_effect rst)
    = Report.district_effect rst.
Proof.
  destruct est as [[s d b y se] eo eraw erows echart et ereq].
  destruct rst as [[rs rd rb rt f1 f2 f3 f4] ro rraw rto rfr rreq rdl].
  split_and!.
  - by destruct s.
  - by destruct d.
  - by destruct rs.
  - by destruct rd.
Qed.

(** X5. Changing the state clears what hung on the old one: after the state
    effect for a selected state the district and block choices and the block
    options are empty, the district effect has nothing to do in either
    order, and a search issued then carries no district and no block
    criterion. *)
Theorem state_change_clears_district_and_block
    (number : Type) (st : Explore.State number) (sel : jsstring) :
  sel ≠ [] →
  Explore.state
    (Explore.filters (Explore.state_effect (Explore.select_state sel st)))
  = sel
  ∧ Explore.district
      (Explore.filters (Explore.state_effect (Explore.select_state sel st)))
    = []
  ∧ Explore.block
      (Explore.filters (Explore.state_effect (Explore.select_state sel st)))
    = []
  ∧ Explore.blocks
      (Explore.filterOptions
         (Explore.state_effect (Explore.select_state sel st)))
    = []
  ∧ Explore.district_effect
      (Explore.state_effect (Explore.select_state sel st))
    = Explore.state_effect (Explore.select_state sel st)
  ∧ Explore.state_effect
      (Explore.district_effect (Explore.select_state sel st))
    = Explore.state_effect (Explore.select_state sel st)
  ∧ (∀ k v : jsstring,
        (k, v)
        ∈ Explore.search_params
            (Explore.filters
               (Explore.state_effect (Explore.select_state sel st))) →
        k ≠ lit "district" ∧ k ≠ lit "block").
Proof.
  intros Hsel. destruct sel as [|c sel]; [done|].
  destruct st as [[s d b y se] eo eraw erows echart et ereq].
  split_and!; try reflexivity.
  - by destruct d.
  - intros k v. unfold Explore.search_params.
    rewrite foldl_append_truthy, app_nil_l, list_elem_of_filter.
    cbn. intros [Hv Hin].
    repeat (apply elem_of_cons in Hin as [Hin|Hin];
            [injection Hin as -> ->;
             first [done | split; intros Heq; vm_compute in Heq; discriminate]
            |]).
    by apply elem_of_nil in Hin.
Qed.

(** The sample page with a district and a block chosen under another
    state. *)
Lemma state_change_clears_district_and_block_witness :
  Explore.search_params
    (Explore.filters
       (Explore.state_effect
          (Explore.select_state (lit "Rajasthan")
             (Explore_select_block (lit "Kadi")
                (Explore.select_district (lit "Mehsana")
                   (Explore.select_state (lit "Gujarat") sample_explore))))))
  = [(lit "state", lit "Rajasthan")]
  ∧ Explore.blocks
      (Explore.filterOptions
         (Explore.state_effect
            (Explore.select_state (lit "Rajasthan")
               (Explore_select_block (lit "Kadi")
                  (Explore.select_district (lit "Mehsana")
                     (Explore.select_state (lit "Gujarat") sample_explore))))))
    = [].
Proof.
  split; [reflexivity|].
  refine (proj1 (proj2 (proj2 (proj2
    (state_change_clears_district_and_block unit
       (Explore_select_block (lit "Kadi")
          (Explore.select_district (lit "Mehsana")
             (Explore.select_state (lit "Gujarat") sample_explore)))
       (lit "Rajasthan") _))))).
  vm_compute. discriminate.
Defined.

(** ** The search request and its outcome *)

(** X6. Every click on Search sends one request and shows one toast, and
    never touches the filters, the options or the stored rows.  A rejected
    request leaves the table and the chart as they were and shows the
    destructive "No Data Found" toast; a resolved one replaces the table by
    the result, also by an empty one, and shows "<n> records found." *)
Theorem search_outcomes
    (number : Type)
    (getData : jsstring → outcome (list (Explore.Row.t number)))
    (st : Explore.State number) :
  Explore.filters (Explore.handleSearch getData st) = Explore.filters st
  ∧ Explore.filterOptions (Explore.handleSearch getData st)
    = Explore.filterOptions st
  ∧ Explore.rawFilters (Explore.handleSearch getData st)
    = Explore.rawFilters st
  ∧ length (Explore.requests (Explore.handleSearch getData st))
    = S (length (Explore.requests st))
  ∧ (getData (Explore.search_url (Explore.filters st)) = Rejected →
     Explore.rows (Explore.handleSearch getData st) = Explore.rows st
     ∧ Explore.chartData (Explore.handleSearch getData st)
       = Explore.chartData st
     ∧ Explore.toasts (Explore.handleSearch getData st)
       = Explore.toasts st ++
           [{| title := lit "No Data Found";
               description := lit "No results for selected filters.";
               variant := Destructive |}])
  ∧ (∀ res : list (Explore.Row.t number),
        getData (Explore.search_url (Explore.filters st)) = Resolved res →
        Explore.rows (Explore.handleSearch getData st) = res
        ∧ Explore.toasts (Explore.handleSearch getData st)
          = Explore.toasts st ++
              [{| title := lit "Loaded";
                  description :=
                    lit (pretty (length res)) ++ lit " records found.";
                  variant := Default |}]).
Proof.
  unfold Explore.handleSearch.
  destruct (getData _) as [res|]; cbn;
    rewrite ?length_app; split_and!; try done; try (cbn; lia).
  intros res' [= <-]. done.
Qed.

(** The serializer never writes ["&"] or ["="] for a code unit. *)
Lemma keeps_not_separator (b : N) :
  URLSearchParams.keeps b = true → b ≠ 38%N ∧ b ≠ 61%N.
Proof. intros H. split; intros ->; vm_compute in H; discriminate. Qed.

Lemma hex_digit_not_separator (n : N) :
  URLSearchParams.hex_digit n ≠ 38%N ∧ URLSearchParams.hex_digit n ≠ 61%N.
Proof.
  unfold URLSearchParams.hex_digit.
  destruct (N.ltb_spec n 10); split; lia.
Qed.

Lemma encode_byte_no_separator (b c : N) :
  c ∈ URLSearchParams.encode_byte b → c ≠ 38%N ∧ c ≠ 61%N.
Proof.
  unfold URLSearchParams.encode_byte.
  destruct (URLSearchParams.keeps b) eqn:Hk.
  - intros ->%list_elem_of_singleton. by apply keeps_not_separator.
  - destruct (N.eqb_spec b 32).
    + intros ->%list_elem_of_singleton. vm_compute. split; discriminate.
    + change (lit "%") with [37%N]. cbn [app].
      intros Hc. repeat (apply elem_of_cons in Hc as [->|Hc]);
        [split; discriminate|apply hex_digit_not_separator..|].
      by apply elem_of_nil in Hc.
Qed.

Lemma elem_of_concat {A : Type} (x : A) (ls : list (list A)) :
  x ∈ concat ls ↔ ∃ l, x ∈ l ∧ l ∈ ls.
Proof.
  induction ls as [|l ls IH]; cbn [concat].
  - split; [by intros ?%elem_of_nil|]. by intros (l & _ & ?%elem_of_nil).
  - rewrite elem_of_app, IH. split.
    + intros [Hx|(l' & Hx & Hl')].
      * exists l. split; [done|left].
      * exists l'. split; [done|by right].
    + intros (l' & Hx & [->|Hl']%elem_of_cons); [by left|].
      right. by exists l'.
Qed.

Lemma encode_no_separator (s : jsstring) (c : N) :
  c ∈ URLSearchParams.encode s → c ≠ 38%N ∧ c ≠ 61%N.
Proof.
  unfold URLSearchParams.encode.
  intros (bs & Hc & Hbs)%elem_of_concat.
  apply list_elem_of_fmap in Hbs as (b & -> & _).
  by eapply encode_byte_no_separator.
Qed.

Lemma component_no_ampersand (kv : jsstring * jsstring) :
  38%N ∉ component kv.
Proof.
  unfold component. change (lit "=") with [61%N].
  rewrite !not_elem_of_app. split_and!.
  - intros H%encode_no_separator. by destruct H.
  - intros H%list_elem_of_singleton. discriminate.
  - intros H%encode_no_separator. by destruct H.
Qed.

(** Splitting a joined list at a separator unit its pieces do not hold
    gives the pieces back. *)
Lemma split_join_pieces (d : code_unit) (parts : list jsstring) :
  parts ≠ [] → Forall (λ p, d ∉ p) parts →
  split [d] (URLSearchParams.join [d] parts) = parts.
Proof.
  intros Hne Hfree. cbn [split].
  induction Hfree as [|p rest Hp Hrest IH]; [done|].
  destruct rest as [|q rest].
  - cbn [URLSearchParams.join]. by rewrite split_from_free.
  - change (URLSearchParams.join [d] (p :: q :: rest))
      with (p ++ d :: URLSearchParams.join [d] (q :: rest)).
    rewrite split_from_first by done. cbn [app]. f_equal. by apply IH.
Qed.

(** X7. The query string of a search cannot be confused by its values: cut
    at ["&"] it has exactly one component per filled-in field, in field
    order, and each component cut at ["="] is the encoded key and the
    encoded value; with no field filled in the request is ["/water-level?"]
    and nothing else. *)
Theorem search_query_components (f : Explore.Filters) :
  (Explore.search_params f ≠ [] →
   split (lit "&") (URLSearchParams.toString (Explore.search_params f))
   = component <$> Explore.search_params f)
  ∧ (∀ kv : jsstring * jsstring,
        split (lit "=") (component kv)
        = [URLSearchParams.encode kv.1; URLSearchParams.encode kv.2])
  ∧ (Explore.search_params f = [] ↔
     Explore.search_url f = lit "/water-level?").
Proof.
  split_and!.
  - intros Hne. change (lit "&") with [38%N].
    unfold URLSearchParams.toString.
    apply split_join_pieces.
    + by destruct (Explore.search_params f).
    + apply Forall_fmap, Forall_forall. intros kv _.
      apply component_no_ampersand.
  - intros kv. unfold component. change (lit "=") with [61%N]. cbn [split].
    change (URLSearchParams.encode kv.1 ++ [61%N] ++ URLSearchParams.encode kv.2)
      with (URLSearchParams.encode kv.1 ++ 61%N :: URLSearchParams.encode kv.2).
    rewrite split_from_first.
    + rewrite split_from_free; [done|].
      intros H%encode_no_separator. by destruct H.
    + intros H%encode_no_separator. by destruct H.
  - unfold Explore.search_url. split.
    + intros ->. reflexivity.
    + intros Heq.
      assert (URLSearchParams.toString (Explore.search_params f) = []) as H0.
      { apply (f_equal length) in Heq. rewrite length_app in Heq.
        apply nil_length_inv. lia. }
      destruct (Explore.search_params f) as [|kv qp]; [done|].
      exfalso. revert H0. unfold URLSearchParams.toString.
      rewrite fmap_cons. change (lit "=") with [61%N].
      destruct (_ <$> qp); cbn [URLSearchParams.join]; intros H0;
        apply (f_equal length) in H0; rewrite ?length_app in H0;
        cbn in H0; lia.
Qed.

(** A state name with ["&"] and ["="] in it, and a year. *)
Lemma search_query_components_witness :
  split (lit "&")
    (URLSearchParams.toString (Explore.search_params tricky_filters))
  = [lit "state=A%26B%3DC"; lit "year=2020"].
Proof.
  refine (proj1 (search_query_components tricky_filters) _).
  vm_compute. discriminate.
Defined.

(** A search that fails after one that succeeded. *)
Lemma search_outcomes_witness :
  Explore.rows
    (Explore.handleSearch (λ _, Rejected)
       (Explore.handleSearch (λ _, Resolved sorted_rows) (Explore.initial Z)))
  = sorted_rows.
Proof.
  refine (proj1 (proj1 (proj2 (proj2 (proj2 (proj2
    (search_outcomes Z (λ _, Rejected)
       (Explore.handleSearch (λ _, Resolved sorted_rows)
          (Explore.initial Z))))))) eq_refl)).
Defined.

Lemma keeps_ascii (c : N) : URLSearchParams.keeps c = true → (c < 128)%N.
Proof.
  unfold URLSearchParams.keeps.
  rewrite !orb_true_iff, !andb_true_iff, !N.leb_le, !N.eqb_eq. lia.
Qed.

Lemma scalar_values_verbatim (s : jsstring) :
  written_verbatim s → URLSearchParams.scalar_values s = s.
Proof.
  induction 1 as [|c s Hc%keeps_ascii _ IH]; [done|].
  cbn [URLSearchParams.scalar_values].
  unfold URLSearchParams.is_high_surrogate, URLSearchParams.is_low_surrogate.
  destruct (N.leb_spec 55296 c); [lia|].
  destruct (N.leb_spec 56320 c); [lia|].
  cbn. by rewrite IH.
Qed.

Lemma utf8_verbatim (s : jsstring) :
  written_verbatim s → concat (URLSearchParams.utf8 <$> s) = s.
Proof.
  induction 1 as [|c s Hc%keeps_ascii _ IH]; [done|].
  rewrite fmap_cons. cbn [concat]. rewrite IH.
  unfold URLSearchParams.utf8. destruct (N.ltb_spec c 128); [done|lia].
Qed.

Lemma encode_byte_verbatim (s : jsstring) :
  written_verbatim s → concat (URLSearchParams.encode_byte <$> s) = s.
Proof.
  induction 1 as [|c s Hc _ IH]; [done|].
  rewrite fmap_cons. cbn [concat]. rewrite IH.
  unfold URLSearchParams.encode_byte. by rewrite Hc.
Qed.

Lemma encode_verbatim (s : jsstring) :
  written_verbatim s → URLSearchParams.encode s = s.
Proof.
  intros H. unfold URLSearchParams.encode.
  by rewrite scalar_values_verbatim, utf8_verbatim, encode_byte_verbatim.
Qed.

(** X8. When every chosen value is made of ASCII letters, digits and
    [*-._] only (a year, a one-word name), the request carries the values as
    they are: it is ["/water-level?"] followed by the [key=value] pairs of the
    filled-in fields, joined by ["&"]. *)
Theorem search_url_verbatim (f : Explore.Filters) :
  Forall written_verbatim (snd <$> Explore.entries f) →
  Explore.search_url f
  = lit "/water-level?" ++
    URLSearchParams.join (lit "&")
      ((λ kv, kv.1 ++ lit "=" ++ kv.2) <$> Explore.search_params f).
Proof.
  intros Hv. unfold Explore.search_url, URLSearchParams.toString.
  do 2 f_equal. apply Forall_fmap_ext_1, Forall_forall.
  intros [k v]. unfold Explore.search_params.
  rewrite foldl_append_truthy, app_nil_l.
  intros [_ Hin]%list_elem_of_filter. cbn [fst snd].
  assert (written_verbatim v) as Hvv.
  { rewrite Forall_fmap, Forall_forall in Hv. apply (Hv _ Hin). }
  assert (written_verbatim k) as Hkv.
  { unfold Explore.entries in Hin.
    repeat (apply elem_of_cons in Hin as [[= -> _]|Hin];
            [by repeat constructor|]).
    by apply elem_of_nil in Hin. }
  by rewrite !encode_verbatim.
Qed.

(** State, district and year chosen. *)
Lemma search_url_verbatim_witness :
  Explore.search_url plain_filters
  = lit "/water-level?state=Gujarat&district=Mehsana&year=2020".
Proof.
  refine (search_url_verbatim plain_filters _).
  repeat constructor.
Defined.

(** ** The ask form: which questions are submitted *)

Lemma trim_start_nil_iff (s : jsstring) :
  trim_start s = [] ↔ Forall (λ c, is_whitespace c = true) s.
Proof.
  split; [|apply trim_start_blank].
  induction s as [|c s IH]; [constructor|].
  cbn [trim_start]. destruct (is_whitespace c) eqn:Hc; [|done].
  intros H. constructor; [done|by apply IH].
Qed.

Lemma trim_start_head (s r : jsstring) (c : code_unit) :
  trim_start s = c :: r → is_whitespace c = false.
Proof.
  induction s as [|d s IH]; [done|].
  cbn [trim_start]. destruct (is_whitespace d) eqn:Hd; [done|].
  by intros [= <- _].
Qed.

Lemma trim_nil_iff (q : jsstring) :
  trim q = [] ↔ Forall (λ c, is_whitespace c = true) q.
Proof.
  split; [|apply trim_blank].
  unfold trim, trim_end. intros H.
  apply (f_equal reverse) in H. rewrite reverse_involutive, reverse_nil in H.
  apply trim_start_nil_iff in H. rewrite Forall_reverse in H.
  apply trim_start_nil_iff.
  destruct (trim_start q) as [|c r] eqn:Hq; [done|].
  apply trim_start_head in Hq. apply Forall_cons in H as [Hc _]. congruence.
Qed.

Lemma handleSubmit_submitted
    (postData : Ask.Request → outcome (option Ask.Response))
    (st : Ask.State) :
  trim (Ask.query st) ≠ [] →
  ∃ reply : jsstring,
    reply ≠ []
    ∧ Ask.query (Ask.handleSubmit postData st) = []
    ∧ Ask.messages (Ask.handleSubmit postData st)
      = Ask.messages st ++ turn_messages (Ask.query st, reply)
    ∧ Ask.requests (Ask.handleSubmit postData st)
      = Ask.requests st ++ [turn_request (Ask.query st, reply)].
Proof.
  intros Hq. unfold Ask.handleSubmit.
  destruct (trim (Ask.query st)) as [|c q]; [done|]. cbn [truthy negb].
  destruct (postData _) as [response|].
  - exists (Ask.botReply response).
    split_and!; [apply botReply_displayable|done| |done].
    cbn. by rewrite <- app_assoc.
  - exists Ask.unreachable_reply. split_and!; [done..| |done].
    cbn. by rewrite <- app_assoc.
Qed.

(** X9. The form acts exactly on questions with a visible character: the
    handler leaves the state as it is if and only if every code unit of the
    question is white space; otherwise the question is sent and shown as
    typed, surrounding blanks included, and the input box is emptied. *)
Theorem submit_iff_visible_character
    (postData : Ask.Request → outcome (option Ask.Response))
    (st : Ask.State) :
  (Ask.handleSubmit postData st = st ↔
   Forall (λ c, is_whitespace c = true) (Ask.query st))
  ∧ (¬ Forall (λ c, is_whitespace c = true) (Ask.query st) →
     Ask.query (Ask.handleSubmit postData st) = []
     ∧ Ask.requests (Ask.handleSubmit postData st)
       = Ask.requests st ++
           [{| Ask.endpoint := lit "/ask_ai";
               Ask.body := {| Ask.body_query := Ask.query st;
                              Ask.k := 5 |} |}]
     ∧ Ask.messages (Ask.handleSubmit postData st) !! length (Ask.messages st)
       = Some {| Ask.type := Ask.user; Ask.content := Ask.query st |}).
Proof.
  split.
  - split.
    + intros Heq. apply trim_nil_iff.
      destruct (decide (trim (Ask.query st) = [])) as [|Hne]; [done|].
      destruct (handleSubmit_submitted postData st Hne)
        as (reply & _ & _ & Hm & _).
      rewrite Heq in Hm. apply (f_equal length) in Hm.
      rewrite length_app in Hm. cbn in Hm. lia.
    + intros Hb. unfold Ask.handleSubmit. by rewrite trim_blank.
  - intros Hv. rewrite <- trim_nil_iff in Hv.
    destruct (handleSubmit_submitted postData st Hv)
      as (reply & _ & Hq & Hm & Hr).
    split_and!; [done|done|].
    rewrite Hm. rewrite lookup_app_r by lia. by rewrite Nat.sub_diag.
Qed.


(** A question with blanks around it. *)
Lemma submit_iff_visible_character_witness :
  Ask.requests
    (Ask.handleSubmit (λ _, Rejected) (ask_with (lit "  What is an aquifer? ")))
  = [{| Ask.endpoint := lit "/ask_ai";
        Ask.body := {| Ask.body_query := lit "  What is an aquifer? ";
                       Ask.k := 5 |} |}].
Proof.
  refine (proj1 (proj2 (proj2 (submit_iff_visible_character (λ _, Rejected)
                                 (ask_with (lit "  What is an aquifer? "))) _))).
  intros H. apply trim_nil_iff in H. vm_compute in H. discriminate.
Defined.

(** ** The helpers of [api.ts] *)

Lemma settle_Fulfilled {J : Type} (fetched : option (Api.Response J)) (j : J) :
  Api.settle fetched = Api.Fulfilled j ↔
  ∃ r, fetched = Some r ∧ Api.ok r = true ∧ Api.json r = Some j.
Proof.
  unfold Api.settle. split.
  - destruct fetched as [r|]; [|done].
    destruct (Api.ok r) eqn:Hok; [|done].
    destruct (Api.json r) as [j'|] eqn:Hj; [|done].
    intros [= ->]. by exists r.
  - intros (r & -> & -> & ->). done.
Qed.

Lemma settle_Thrown {J : Type} (fetched : option (Api.Response J)) :
  (∃ e, Api.settle fetched = Api.Thrown e) ↔ fetch_failed fetched.
Proof.
  unfold Api.settle, fetch_failed. destruct fetched as [r|].
  - destruct (Api.ok r); [|split; eauto].
    destruct (Api.json r); split; eauto; [by intros [e ?]|by intros [?|?]].
  - split; eauto.
Qed.

(** X11. [getData] and [postData] return the parsed JSON exactly when the
    fetch came back with an ok status and a body that parses.  [getData]
    fetches [BASE_URL + endpoint] with GET and no body, [postData] posts the
    data as JSON.  A status that is not ok throws
    ["Error <status>: <statusText>"] even when the body parses, and whatever
    is thrown is written to the console once, under the helper's label. *)
Theorem api_helpers_contract
    (B J : Type) (fetch : Api.Call B → option (Api.Response J))
    (endpoint : jsstring) (data : B) :
  (∀ j : J,
      (Api.getData fetch endpoint).1 = Api.Fulfilled j ↔
      ∃ r, fetch {| Api.url := BASE_URL ++ endpoint; Api.method := Api.GET;
                    Api.content_type := None; Api.body := None |} = Some r
           ∧ Api.ok r = true ∧ Api.json r = Some j)
  ∧ (∀ j : J,
        (Api.postData fetch endpoint data).1 = Api.Fulfilled j ↔
        ∃ r, fetch {| Api.url := BASE_URL ++ endpoint;
                      Api.method := Api.POST;
                      Api.content_type := Some (lit "application/json");
                      Api.body := Some data |} = Some r
             ∧ Api.ok r = true ∧ Api.json r = Some j)
  ∧ (∀ r : Api.Response J,
        fetch {| Api.url := BASE_URL ++ endpoint; Api.method := Api.POST;
                 Api.content_type := Some (lit "application/json");
                 Api.body := Some data |} = Some r →
        Api.ok r = false →
        Api.postData fetch endpoint data
        = (Api.Thrown
             (Api.HttpError
                (lit "Error " ++ lit (pretty (Api.status r)) ++ lit ": " ++
                 Api.statusText r)),
           [(lit "API POST error:",
             Api.HttpError
               (lit "Error " ++ lit (pretty (Api.status r)) ++ lit ": " ++
                Api.statusText r))]))
  ∧ (∀ e : Api.Error,
        (Api.getData fetch endpoint).1 = Api.Thrown e ↔
        (Api.getData fetch endpoint).2 = [(lit "API GET error:", e)])
  ∧ (∀ e : Api.Error,
        (Api.postData fetch endpoint data).1 = Api.Thrown e ↔
        (Api.postData fetch endpoint data).2 = [(lit "API POST error:", e)]).
Proof.
  split_and!.
  - intros j. apply settle_Fulfilled.
  - intros j. apply settle_Fulfilled.
  - intros r Hr Hok. unfold Api.postData, Api.logged, Api.settle.
    by rewrite Hr, Hok.
  - intros e. unfold Api.getData, Api.logged. cbn [fst snd].
    destruct (Api.settle _); split; congruence.
  - intros e. unfold Api.postData, Api.logged. cbn [fst snd].
    destruct (Api.settle _); split; congruence.
Qed.

(** A status 500 with a body that parses. *)
Lemma api_helpers_contract_witness :
  Api.postData (λ _ : Api.Call unit, Some (status_500 7%Z)) (lit "/ask_ai") tt
  = (Api.Thrown (Api.HttpError (lit "Error 500: Internal Server Error")),
     [(lit "API POST error:",
       Api.HttpError (lit "Error 500: Internal Server Error"))]).
Proof.
  refine (proj1 (proj2 (proj2 (api_helpers_contract unit Z
            (λ _, Some (status_500 7%Z)) (lit "/ask_ai") tt)))
            (status_500 7%Z) eq_refl eq_refl).
Defined.

Lemma via_api_rejected {J : Type} (fetched : option (Api.Response J)) :
  fetch_failed fetched → Api.to_outcome (Api.settle fetched) = Rejected.
Proof.
  intros [e ->]%settle_Thrown. done.
Qed.

(** X12. With the helpers of [api.ts] plugged in, a fetch that fails in any
    way (no connection, a status that is not ok, a body that is not JSON)
    takes each handler down its failure path: the chat gets the "Unable to
    reach AI backend" message, the search shows "No Data Found" and keeps
    the table, and the report form shows "Failed to generate report." and
    starts no download. *)
Theorem failed_fetch_takes_failure_path
    (number : Type)
    (afetch : Api.Call Ask.AskBody
              → option (Api.Response (option Ask.Response)))
    (efetch : Api.Call unit
              → option (Api.Response (list (Explore.Row.t number))))
    (rfetch : Api.Call Report.Config
              → option (Api.Response (option Report.Result)))
    (ast : Ask.State) (est : Explore.State number) (rst : Report.State) :
  (∀ call, fetch_failed (afetch call)) →
  (∀ call, fetch_failed (efetch call)) →
  (∀ call, fetch_failed (rfetch call)) →
  trim (Ask.query ast) ≠ [] →
  Report.missing (Report.reportConfig rst) = [] →
  Ask.messages (Ask.handleSubmit (Ask_via_api afetch) ast)
  = Ask.messages ast ++
      [{| Ask.type := Ask.user; Ask.content := Ask.query ast |};
       {| Ask.type := Ask.bot; Ask.content := Ask.unreachable_reply |}]
  ∧ Explore.rows (Explore.handleSearch (Explore_via_api efetch) est)
    = Explore.rows est
  ∧ last (Explore.toasts (Explore.handleSearch (Explore_via_api efetch) est))
    = Some {| title := lit "No Data Found";
              description := lit "No results for selected filters.";
              variant := Destructive |}
  ∧ last (Report.toasts
            (Report.handleGenerateReport (Report_via_api rfetch) rst))
    = Some {| title := lit "Error";
              description := lit "Failed to generate report.";
              variant := Destructive |}
  ∧ Report.downloads (Report.handleGenerateReport (Report_via_api rfetch) rst)
    = Report.downloads rst.
Proof.
  intros Ha He Hr Hq Hm. split_and!.
  - unfold Ask.handleSubmit.
    destruct (trim (Ask.query ast)) as [|c q]; [done|]. cbn [truthy negb].
    unfold Ask_via_api, Api.postData, Api.logged. cbn [fst].
    rewrite via_api_rejected by apply Ha. cbn. by rewrite <- app_assoc.
  - unfold Explore.handleSearch, Explore_via_api, Api.getData, Api.logged.
    cbn [fst]. by rewrite via_api_rejected by apply He.
  - unfold Explore.handleSearch, Explore_via_api, Api.getData, Api.logged.
    cbn [fst]. rewrite via_api_rejected by apply He. cbn. by rewrite last_snoc.
  - unfold Report.handleGenerateReport. rewrite guard_missing.
    rewrite bool_decide_false by (by intros []).
    unfold Report_via_api, Api.postData, Api.logged. cbn [fst].
    rewrite via_api_rejected by apply Hr. cbn.
    by rewrite (last_app_cons _ [_] _).
  - unfold Report.handleGenerateReport. rewrite guard_missing.
    rewrite bool_decide_false by (by intros []).
    unfold Report_via_api, Api.postData, Api.logged. cbn [fst].
    by rewrite via_api_rejected by apply Hr.
Qed.

(** Every request answered with status 500. *)
Lemma failed_fetch_takes_failure_path_witness :
  Ask.messages
    (Ask.handleSubmit (Ask_via_api (λ _, Some (status_500 None)))
       (ask_with aquifer_question))
  = [{| Ask.type := Ask.bot; Ask.content := Ask.greeting |};
     {| Ask.type := Ask.user; Ask.content := aquifer_question |};
     {| Ask.type := Ask.bot; Ask.content := Ask.unreachable_reply |}].
Proof.
  refine (proj1 (failed_fetch_takes_failure_path Z
                   (λ _, Some (status_500 None))
                   (λ _, Some (status_500 []))
                   (λ _, Some (status_500 None))
                   (ask_with aquifer_question) (Explore.initial Z)
                   report_complete _ _ _ _ _)).
  - intros _. by left.
  - intros _. by left.
  - intros _. by left.
  - vm_compute. discriminate.
  - reflexivity.
Defined.

(** ** The download link of a generated report *)

Section LastPiece.
Variable d : code_unit.

(** Every string either has no [d] or splits at its last [d]. *)
Lemma last_occurrence (s : jsstring) :
  d ∉ s ∨ ∃ pre seg, s = pre ++ d :: seg ∧ d ∉ seg.
Proof.
  induction s as [|c s IH].
  - left. apply not_elem_of_nil.
  - destruct IH as [Hfree|(pre & seg & -> & Hseg)].
    + destruct (decide (d = c)) as [->|Hne].
      * right. by exists [], s.
      * left. by apply not_elem_of_cons.
    + right. by exists (c :: pre), seg.
Qed.

Lemma split_from_last cur pre seg :
  d ∉ seg → last (split_from [d] 0 cur (pre ++ d :: seg)) = Some seg.
Proof.
  intros Hseg. revert cur. induction pre as [|c pre IH]; intros cur.
  - cbn [app split_from]. rewrite starts_with_one, bool_decide_true by done.
    cbn [length Nat.sub]. by rewrite split_from_free.
  - cbn [app split_from]. rewrite starts_with_one.
    case_bool_decide; [|apply IH].
    cbn [length Nat.sub]. by rewrite last_cons, IH.
Qed.



End LastPiece.

Lemma link_of_path (result : option Report.Result) (p : jsstring) :
  (result ≫= Report.path) = Some p → p ≠ [] →
  Report.link_of result
  = [{| Report.href := lit "http://127.0.0.1:8000/" ++
                       replace_first Report.backslash (lit "/") p;
        Report.download :=
          or_else (default [] (last (split (lit "/") p))) (lit "report.pdf") |}].
Proof.
  intros Hp Hne. unfold Report.link_of. rewrite Hp. by destruct p.
Qed.

(** X13. The file name offered for a generated report is the part of the
    returned path after its last ["/"], or ["report.pdf"] when that part is
    empty; a path without ["/"] is offered whole (back-slashes included).
    The name is never empty and never holds a ["/"]. *)
Theorem report_download_name (result : option Report.Result) (p : jsstring) :
  (result ≫= Report.path) = Some p → p ≠ [] →
  ∃ l : Report.Link,
    Report.link_of result = [l]
    ∧ Report.download l ≠ []
    ∧ (47%N ∉ Report.download l)
    ∧ (47%N ∉ p → Report.download l = p)
    ∧ (∀ pre seg : jsstring,
          p = pre ++ lit "/" ++ seg → 47%N ∉ seg →
          Report.download l = or_else seg (lit "report.pdf")).
Proof.
  intros Hp Hne. rewrite (link_of_path result p Hp Hne).
  eexists. split; [done|]. cbn [Report.download].
  change (lit "/") with [47%N]. cbn [split].
  assert (Hwhole : 47%N ∉ p →
            or_else (default [] (last (split_from [47%N] 0 [] p)))
              (lit "report.pdf") = p).
  { intros Hfree. rewrite split_from_free by done. cbn. by destruct p. }
  assert (Hseg : ∀ pre seg, p = pre ++ [47%N] ++ seg → 47%N ∉ seg →
            or_else (default [] (last (split_from [47%N] 0 [] p)))
              (lit "report.pdf") = or_else seg (lit "report.pdf")).
  { intros pre seg -> Hfree. cbn [app].
    by rewrite split_from_last. }
  assert (Hfb : 47%N ∉ lit "report.pdf").
  { apply (bool_decide_unpack _). vm_compute. exact I. }
  split_and!; [| |done|done].
  - destruct (last_occurrence 47%N p) as [Hfree|(pre & seg & Heq & Hfree)].
    + by rewrite Hwhole.
    + rewrite (Hseg pre seg Heq Hfree). by destruct seg.
  - destruct (last_occurrence 47%N p) as [Hfree|(pre & seg & Heq & Hfree)].
    + by rewrite Hwhole.
    + rewrite (Hseg pre seg Heq Hfree). by destruct seg.
Qed.



(** A path that ends in ["/"], and one without ["/"]. *)
Lemma report_download_name_witness :
  Report.download <$>
    Report.link_of
      (Some {| Report.message := None; Report.path := Some (lit "reports/") |})
  = [lit "report.pdf"].
Proof.
  destruct (report_download_name
              (Some {| Report.message := None;
                       Report.path := Some (lit "reports/") |})
              (lit "reports/") eq_refl)
    as (l & Hl & _ & _ & _ & Hseg).
  - vm_compute. discriminate.
  - rewrite Hl. cbn [fmap list_fmap]. f_equal.
    apply (Hseg (lit "reports") [] eq_refl). apply not_elem_of_nil.
Defined.

(** ** Generating a report *)

Lemma link_of_nil_iff (result : option Report.Result) :
  Report.link_of result = [] ↔
  ¬ ∃ p : jsstring, (result ≫= Report.path) = Some p ∧ p ≠ [].
Proof.
  unfold Report.link_of. destruct (result ≫= Report.path) as [[|c p]|].
  - split; [|done]. by intros _ (p & [= <-] & ?).
  - split; [done|]. intros H. destruct H. by eexists.
  - split; [|done]. by intros _ (p & ? & _).
Qed.

Lemma link_of_length (result : option Report.Result) :
  (length (Report.link_of result) ≤ 1)%nat.
Proof.
  unfold Report.link_of.
  destruct (result ≫= Report.path) as [[|c p]|]; cbn; lia.
Qed.

(** X15. One click on Generate starts at most one download, and it starts
    one exactly when the form is complete and the backend resolved with a
    non-empty [path].  "Report Ready" is shown for every resolved answer,
    also for [null] or one without [path], with the backend's [message] or,
    when that is missing or empty, "Report generated successfully." *)
Theorem report_download_iff_path
    (postData : Report.Request → outcome (option Report.Result))
    (st : Report.State) :
  (length (Report.downloads (Report.handleGenerateReport postData st))
   ≤ S (length (Report.downloads st)))%nat
  ∧ (Report.downloads (Report.handleGenerateReport postData st)
     ≠ Report.downloads st ↔
     Report.missing (Report.reportConfig st) = []
     ∧ ∃ (result : option Report.Result) (p : jsstring),
         postData {| Report.endpoint := lit "/generate_report";
                     Report.body := Report.reportConfig st |} = Resolved result
         ∧ (result ≫= Report.path) = Some p ∧ p ≠ [])
  ∧ (Report.missing (Report.reportConfig st) = [] →
     ∀ result : option Report.Result,
       postData {| Report.endpoint := lit "/generate_report";
                   Report.body := Report.reportConfig st |} = Resolved result →
       Report.toasts (Report.handleGenerateReport postData st)
       = Report.toasts st ++
           [Report.generating;
            {| title := lit "Report Ready";
               description :=
                 match result ≫= Report.message with
                 | Some (c :: m) => c :: m
                 | _ => lit "Report generated successfully."
                 end;
               variant := Default |}]).
Proof.
  unfold Report.handleGenerateReport. rewrite guard_missing.
  destruct (decide (Report.missing (Report.reportConfig st) = [])) as [Hm|Hm].
  - rewrite bool_decide_false by (by intros []).
    destruct (postData _) as [result|] eqn:Hpost; cbn.
    + split_and!.
      * rewrite length_app. pose proof (link_of_length result). lia.
      * split.
        -- intros Hne. split; [done|].
           destruct (decide (Report.link_of result = [])) as [Hnil|Hl].
           ++ rewrite Hnil, app_nil_r in Hne. done.
           ++ destruct (result ≫= Report.path) as [p|] eqn:Hp.
              ** exists result, p. split_and!; [done..|].
                 intros ->. apply Hl, link_of_nil_iff.
                 intros (p' & Hp' & Hne'). congruence.
              ** exfalso. apply Hl, link_of_nil_iff.
                 intros (p' & Hp' & _). congruence.
        -- intros (_ & result' & p & [= <-] & Hp & Hne) Heq.
           apply (f_equal length) in Heq. rewrite length_app in Heq.
           assert (Report.link_of result = []) as Hnil
             by (apply nil_length_inv; lia).
           apply link_of_nil_iff in Hnil. apply Hnil. by exists p.
      * intros _ result' [= <-]. unfold Report.ready.
        by destruct result as [[[[|c m]|] pth]|].
    + split_and!; [lia| |done].
      split; [done|]. by intros (_ & result & p & ? & _).
  - rewrite bool_decide_true by done. cbn. split_and!; [lia| |done].
    split; [done|]. by intros [? _].
Qed.

(** A resolved answer with a message but no path. *)
Lemma report_download_iff_path_witness :
  Report.toasts
    (Report.handleGenerateReport
       (λ _, Resolved (Some {| Report.message := Some (lit "Queued");
                               Report.path := None |}))
       report_complete)
  = [Report.generating;
     {| title := lit "Report Ready"; description := lit "Queued";
        variant := Default |}].
Proof.
  refine (proj2 (proj2 (report_download_iff_path _ report_complete))
            eq_refl _ eq_refl).
Defined.

(** ** The report preview *)

Lemma find_label_elem (types : list (jsstring * jsstring)) (v l : jsstring) :
  ReportView.find_label types v = Some l → l ∈ types.*2.
Proof.
  induction types as [|t types IH]; [done|].
  cbn [ReportView.find_label]. rewrite fmap_cons. case_decide as Hd.
  - intros [= <-]. left.
  - intros Hf. right. by apply IH.
Qed.

Lemma elem_of_missing (f : Report.Field) (c : Report.Config) :
  f ∈ Report.missing c ↔ Report.field_value f c = [].
Proof.
  unfold Report.missing. rewrite list_elem_of_filter. split; [by intros [? _]|].
  intros H. split; [done|]. destruct f; repeat constructor.
Qed.

(** X16. The preview shows a placeholder exactly where the form would be
    refused: "Select report type" if and only if the report type is missing,
    "Select location" if and only if the state or the district is missing;
    so the preview is free of placeholders exactly when Generate sends the
    request. *)
Theorem preview_placeholders_match_validation (c : Report.Config) :
  (ReportView.preview_title c = Some (lit "Select report type") ↔
   Report.FReportType ∈ Report.missing c)
  ∧ (ReportView.preview_coverage c = lit "Select location" ↔
     Report.FState ∈ Report.missing c ∨ Report.FDistrict ∈ Report.missing c)
  ∧ (ReportView.preview_title c ≠ Some (lit "Select report type")
     ∧ ReportView.preview_coverage c ≠ lit "Select location" ↔
     Report.missing c = []).
Proof.
  assert (Htitle : ∀ c0 t, ReportView.find_label ReportView.reportTypes (c0 :: t)
                           ≠ Some (lit "Select report type")).
  { intros c0 t H%find_label_elem. revert H.
    apply (bool_decide_unpack _). vm_compute. exact I. }
  assert (Hcov : ∀ s d b : jsstring,
             d ++ lit ", " ++ s ++ b ≠ lit "Select location").
  { intros s d b Heq.
    assert (44%N ∈ lit "Select location") as Hin.
    { rewrite <- Heq. rewrite elem_of_app. right. left. }
    revert Hin. apply (bool_decide_unpack _). vm_compute. exact I. }
  assert (H1 : ReportView.preview_title c = Some (lit "Select report type") ↔
               Report.reportType c = []).
  { unfold ReportView.preview_title.
    destruct (Report.reportType c) as [|t0 t]; cbn [truthy]; [done|].
    split; [|done]. intros H. by apply Htitle in H. }
  assert (H2 : ReportView.preview_coverage c = lit "Select location" ↔
               Report.state c = [] ∨ Report.district c = []).
  { unfold ReportView.preview_coverage.
    destruct (Report.state c) as [|s0 s]; cbn [truthy andb]; [by split; auto|].
    destruct (Report.district c) as [|d0 d]; cbn [truthy]; [by split; auto|].
    split; [|by intros [|]]. intros H. by apply Hcov in H. }
  rewrite !elem_of_missing. cbn [Report.field_value].
  split_and!; [done|done|].
  rewrite H1, H2, missing_nil_iff.
  destruct (decide (Report.state c = [])),
           (decide (Report.district c = [])),
           (decide (Report.reportType c = [])); tauto.
Qed.

Lemma section_item_shown (key : ReportView.ReportBooleanKeys)
    (c : Report.Config) :
  section_item key ∈ ReportView.preview_sections c ↔
  ReportView.flag key c = true.
Proof.
  destruct c as [s d b t f1 f2 f3 f4].
  destruct key, f1, f2, f3, f4; cbn [ReportView.flag Report.includeCharts
    Report.includeTrends Report.includeComparisons
    Report.includeRecommendations];
    (split; intros H;
     [first [done
            |exfalso; revert H; apply (bool_decide_unpack _); vm_compute;
             exact I]
     |first [done|apply (bool_decide_unpack _); vm_compute; exact I]]).
Qed.

Lemma flag_onCheckedChange (key key' : ReportView.ReportBooleanKeys)
    (checked : ReportView.CheckedState) (c : Report.Config) :
  ReportView.flag key' (ReportView.onCheckedChange key checked c)
  = if decide (key' = key) then ReportView.is_true checked
    else ReportView.flag key' c.
Proof.
  destruct key, key'; cbn; by repeat case_decide.
Qed.

(** X17. The "Sections" preview follows the check boxes: it always starts
    with the summary and the data table, it lists the item of a check box
    exactly when that flag is set, a change of one check box shows its item
    if and only if the new state is checked ("indeterminate" counts as
    unchecked) and leaves the other items as they were, and no check box
    changes what the form validation sees. *)
Theorem preview_sections_follow_checkboxes
    (key key' : ReportView.ReportBooleanKeys)
    (checked : ReportView.CheckedState) (c : Report.Config) :
  take 2 (ReportView.preview_sections c)
  = [ReportView.bullet "Executive Summary"; ReportView.bullet "Water Level Data"]
  ∧ (section_item key' ∈ ReportView.preview_sections c ↔
     ReportView.flag key' c = true)
  ∧ (section_item key
     ∈ ReportView.preview_sections (ReportView.onCheckedChange key checked c) ↔
     checked = ReportView.Checked)
  ∧ (key' ≠ key →
     (section_item key'
      ∈ ReportView.preview_sections (ReportView.onCheckedChange key checked c) ↔
      section_item key' ∈ ReportView.preview_sections c))
  ∧ Report.missing (ReportView.onCheckedChange key checked c)
    = Report.missing c.
Proof.
  split_and!.
  - done.
  - apply section_item_shown.
  - rewrite section_item_shown, flag_onCheckedChange, decide_True by done.
    by destruct checked.
  - intros Hne.
    by rewrite !section_item_shown, flag_onCheckedChange, decide_False.
  - by destruct key.
Qed.

(** Ticking "Regional Comparisons" on the initial form. *)
Lemma preview_sections_follow_checkboxes_witness :
  section_item ReportView.includeCharts
  ∈ ReportView.preview_sections
      (ReportView.onCheckedChange ReportView.includeComparisons
         ReportView.Checked (Report.reportConfig Report.initial)).
Proof.
  refine (proj2 (proj1 (proj2 (proj2 (proj2
    (preview_sections_follow_checkboxes ReportView.includeComparisons
       ReportView.includeCharts ReportView.Checked
       (Report.reportConfig Report.initial))))) _) _).
  - discriminate.
  - apply (bool_decide_unpack _). vm_compute. exact I.
Defined.

(** ** Loading the filters *)

(** X18. The two pages treat an incomplete [/available-filters] answer
    differently.  On the Explore page a missing [raw] stores nothing and a
    missing [states] stores the rows but leaves the options as they were;
    both show the "Failed to load filter options." toast.  On the report
    page a missing [raw] or [states] counts as an empty list and no toast is
    shown. *)
Theorem load_with_missing_keys
    (number : Type)
    (getData : jsstring → outcome Explore.AvailableFilters)
    (rgetData : jsstring → outcome Report.AvailableFilters)
    (res : Explore.AvailableFilters) (rres : Report.AvailableFilters)
    (est : Explore.State number) (rst : Report.State) :
  getData (lit "/available-filters") = Resolved res →
  rgetData (lit "/available-filters") = Resolved rres →
  (Explore.res_raw res = None →
   Explore.rawFilters (Explore.load getData est) = Explore.rawFilters est
   ∧ Explore.filterOptions (Explore.load getData est)
     = Explore.filterOptions est
   ∧ last (Explore.toasts (Explore.load getData est))
     = Some {| title := lit "Error";
               description := lit "Failed to load filter options.";
               variant := Destructive |})
  ∧ (∀ raw : list Raw.t,
        Explore.res_raw res = Some raw → Explore.res_states res = None →
        Explore.rawFilters (Explore.load getData est) = Raw.cleaned <$> raw
        ∧ Explore.filterOptions (Explore.load getData est)
          = Explore.filterOptions est
        ∧ last (Explore.toasts (Explore.load getData est))
          = Some {| title := lit "Error";
                    description := lit "Failed to load filter options.";
                    variant := Destructive |})
  ∧ (Report.res_raw rres = None →
     Report.rawFilters (Report.loadFilters rgetData rst) = [])
  ∧ (Report.res_states rres = None →
     Report.states (Report.filterOptions (Report.loadFilters rgetData rst))
     = [])
  ∧ Report.toasts (Report.loadFilters rgetData rst) = Report.toasts rst.
Proof.
  intros Hres Hrres. unfold Explore.load, Report.loadFilters.
  rewrite Hres, Hrres. split_and!.
  - intros ->. cbn. by rewrite last_snoc.
  - intros raw -> ->. cbn. by rewrite last_snoc.
  - by intros ->.
  - by intros ->.
  - done.
Qed.

(** An answer that has the rows but no [states]. *)
Lemma load_with_missing_keys_witness :
  Explore.rawFilters
    (Explore.load
       (λ _, Resolved {| Explore.res_raw := Some sample_raw;
                         Explore.res_states := None;
                         Explore.res_years := []; Explore.res_seasons := [] |})
       (Explore.initial unit))
  = Raw.cleaned <$> sample_raw
  ∧ Explore.states
      (Explore.filterOptions
         (Explore.load
            (λ _, Resolved {| Explore.res_raw := Some sample_raw;
                              Explore.res_states := None;
                              Explore.res_years := [];
                              Explore.res_seasons := [] |})
            (Explore.initial unit)))
    = [].
Proof.
  destruct (load_with_missing_keys unit
              (λ _, Resolved {| Explore.res_raw := Some sample_raw;
                                Explore.res_states := None;
                                Explore.res_years := [];
                                Explore.res_seasons := [] |})
              (λ _, Resolved {| Report.res_raw := None;
                                Report.res_states := None |})
              _ _ (Explore.initial unit) Report.initial eq_refl eq_refl)
    as (_ & H & _).
  destruct (H sample_raw eq_refl eq_refl) as (Hraw & Hopt & _).
  split; [exact Hraw|]. by rewrite Hopt.
Defined.

(** ** [split] and [join] *)

Lemma starts_with_app (sep s : jsstring) :
  starts_with sep s = true → s = sep ++ drop (length sep) s.
Proof.
  revert s. induction sep as [|c sep IH]; intros s; [done|].
  destruct s as [|d s]; [done|]. cbn [starts_with length drop app].
  intros [Hc Hs]%andb_true_iff. apply N.eqb_eq in Hc as ->.
  f_equal. by apply IH.
Qed.

Lemma split_from_not_nil (sep : jsstring) (k : nat) (cur s : jsstring) :
  split_from sep k cur s ≠ [].
Proof.
  revert k cur. induction s as [|c s IH]; intros k cur; [done|].
  cbn [split_from]. destruct k; [|apply IH].
  destruct (starts_with sep (c :: s)); [done|apply IH].
Qed.

Lemma join_cons (sep p : jsstring) (rest : list jsstring) :
  rest ≠ [] →
  URLSearchParams.join sep (p :: rest)
  = p ++ sep ++ URLSearchParams.join sep rest.
Proof. by destruct rest. Qed.

Lemma join_split_from (c0 : code_unit) (sep0 s : jsstring) (k : nat)
    (cur : jsstring) :
  (k ≤ length s)%nat →
  URLSearchParams.join (c0 :: sep0) (split_from (c0 :: sep0) k cur s)
  = cur ++ drop k s.
Proof.
  revert k cur. induction s as [|c s IH]; intros k cur Hk.
  - cbn in Hk. replace k with 0%nat by lia. cbn. by rewrite app_nil_r.
  - cbn [split_from]. destruct k as [|k].
    + destruct (starts_with (c0 :: sep0) (c :: s)) eqn:Hsw.
      * rewrite join_cons by apply split_from_not_nil.
        pose proof (starts_with_app _ _ Hsw) as Heq.
        assert (length sep0 ≤ length s)%nat as Hlen.
        { apply (f_equal length) in Heq. rewrite length_app in Heq.
          cbn in Heq. lia. }
        cbn [length Nat.sub]. rewrite Nat.sub_0_r, IH by done.
        cbn [drop length] in *. by rewrite Heq.
      * rewrite IH by lia. cbn [drop]. by rewrite <- app_assoc.
    + cbn [length] in Hk. rewrite IH by lia. done.
Qed.

(** X19. For every separator, joining the pieces of [s.split(sep)] with
    the separator gives [s] back; in particular a name is its cleaned part
    followed by whatever [cleanName] cut off. *)
Theorem split_then_join (sep s : jsstring) :
  URLSearchParams.join sep (split sep s) = s
  ∧ ∃ rest : jsstring, s = cleanName s ++ rest.
Proof.
  split.
  - unfold split. destruct sep as [|c sep].
    + induction s as [|d s IH]; [done|].
      rewrite fmap_cons. destruct s as [|e s]; [done|].
      rewrite join_cons by done. rewrite IH. done.
    + by rewrite join_split_from by lia.
  - destruct (first_occurrence 95%N s) as [H|(p & t & -> & H)].
    + exists []. by rewrite cleanName_free, app_nil_r.
    + exists (95%N :: t). by rewrite cleanName_first.
Qed.

(** ** More on what every reachable state satisfies *)

(** X20. On the normal path the chat shows the backend's answer as it is
    whenever the answer is a non-empty string, and the fallback text
    otherwise; so the "Unable to reach AI backend" text can stand in the
    chat after a resolved call only if the backend itself sent it. *)
Theorem botReply_is_answer_or_fallback (response : option Ask.Response) :
  (∀ a : jsstring,
      (response ≫= Ask.answer) = Some a → a ≠ [] → Ask.botReply response = a)
  ∧ ((response ≫= Ask.answer) = None ∨ (response ≫= Ask.answer) = Some [] →
     Ask.botReply response = Ask.fallback_reply)
  ∧ (Ask.botReply response = Ask.unreachable_reply ↔
     (response ≫= Ask.answer) = Some Ask.unreachable_reply).
Proof.
  assert (Hdiff : Ask.fallback_reply ≠ Ask.unreachable_reply) by done.
  assert (Hsome : Ask.unreachable_reply ≠ []) by done.
  destruct response as [[[[|c a]|]]|];
    cbn -[Ask.fallback_reply Ask.unreachable_reply];
    (split_and!;
     [intros a' Heq Hne; congruence
     |intros [H|H]; congruence
     |split; intros H; congruence]).
Qed.



Lemma Report_step_log (st : Report.State) (e : ReportEvent) :
  Report_log_sound st → Report_log_sound (Report_step st e).
Proof.
  intros [Hreq Hdl].
  destruct e as [getData|v|v|v|v|key checked| | |postData];
    cbn [Report_step]; try done.
  - unfold Report.loadFilters. by destruct (getData _).
  - unfold Report.state_effect. by destruct (truthy _).
  - unfold Report.district_effect. by destruct (truthy _).
  - unfold Report.handleGenerateReport. rewrite guard_missing.
    case_bool_decide as Hm; [done|].
    assert (Report.missing (Report.reportConfig st) = []) as Hnil.
    { by destruct (Report.missing (Report.reportConfig st)). }
    destruct (postData _) as [result|]; split; cbn.
    + apply Forall_app. split; [done|]. by repeat constructor.
    + rewrite !length_app. pose proof (link_of_length result). cbn. lia.
    + apply Forall_app. split; [done|]. by repeat constructor.
    + rewrite length_app. cbn. lia.
Qed.

(** X22. Whatever happens on the report page, every request it has sent is
    a form with state, district and report type filled in, posted to
    [/generate_report], and it has started no more downloads than it has
    sent requests. *)
Theorem report_requests_always_complete (events : list ReportEvent) :
  Forall (λ req, Report.endpoint req = lit "/generate_report"
                 ∧ Report.state (Report.body req) ≠ []
                 ∧ Report.district (Report.body req) ≠ []
                 ∧ Report.reportType (Report.body req) ≠ [])
         (Report.requests (Report_run events))
  ∧ (length (Report.downloads (Report_run events))
     ≤ length (Report.requests (Report_run events)))%nat.
Proof.
  assert (Report_log_sound (Report_run events)) as [Hreq Hdl].
  { unfold Report_run. induction events as [|e events IH] using rev_ind.
    - split; [constructor|done].
    - rewrite foldl_app. cbn [foldl]. by apply Report_step_log. }
  split; [|done].
  eapply Forall_impl; [exact Hreq|].
  intros req [Hend Hm]. split; [done|]. by apply missing_nil_iff.
Qed.
